(** * rivals-workshop-assistant: dotfile bookkeeping and Aseprite tag decomposition

    A shallow embedding of
      - [rivals_workshop_assistant/dotfile_mod.py]
      - [rivals_workshop_assistant/aseprite_handling/aseprites.py]
      - [rivals_workshop_assistant/aseprite_handling/__init__.py]
    together with the properties the specification states about them.

    Python values that live in the [.assistant] dotfile are modelled by a
    small universe [pyval]; the dotfile itself, a Python [dict] with string
    keys, is a [gmap string pyval].  Functions that mutate the dotfile take
    it as an argument and return the updated one.  Every operation that can
    raise in Python returns in [result]. *)

From Stdlib Require Import ZArith Ascii.
From stdpp Require Import base option list strings gmap fin_maps pretty.

Local Open Scope Z_scope.

(** ** Exceptions *)

Inductive exn : Set :=
| TypeError
| AttributeError
| KeyError
| ValueError
| FileNotFoundError.

Inductive result (A : Type) : Type :=
| Ok (a : A)
| Raise (e : exn).
Arguments Ok {A} a.
Arguments Raise {A} e.

#[global] Instance result_ret : MRet result := λ A a, Ok a.
#[global] Instance result_bind : MBind result := λ A B f m,
  match m with
  | Ok a => f a
  | Raise e => Raise e
  end.

(** ** [pathlib]

    Pure paths of the posix flavour: a path is the list of its parts, the
    root first when the path is absolute, as in [p.parts].  Only what the
    three modules use is modelled: the constructor from a string,
    [as_posix], [name], [stem], [parent], [parents], [/] and
    [relative_to]. *)
Module pathlib.

Definition Path : Type := list string.

Fixpoint join (sep : string) (l : list string) : string :=
  match l with
  | [] => ""
  | [x] => x
  | x :: l' => x +:+ sep +:+ join sep l'
  end.

(** [s.split(c)] *)
Fixpoint split (c : ascii) (s : string) : list string :=
  match s with
  | EmptyString => [""]
  | String a s' =>
      if decide (a = c) then "" :: split c s'
      else match split c s' with
           | [] => [String a ""]
           | h :: t => String a h :: t
           end
  end.

(** [s.rfind(c)], with [None] for [-1]. *)
Fixpoint rfind (c : ascii) (s : string) : option nat :=
  match s with
  | EmptyString => None
  | String a s' =>
      match rfind c s' with
      | Some i => Some (S i)
      | None => if decide (a = c) then Some 0%nat else None
      end
  end.

(** The number of [c] that [s] starts with. *)
Fixpoint leading (c : ascii) (s : string) : nat :=
  match s with
  | EmptyString => 0%nat
  | String a s' => if decide (a = c) then S (leading c s') else 0%nat
  end.

(** The root comes first among the parts, as in [p.parts]. *)
Definition is_root (x : string) : bool := bool_decide (x = "/" ∨ x = "//").

(** 1 for an absolute path, 0 for a relative one. *)
Definition anchor_len (p : Path) : nat :=
  match p with
  | r :: _ => if is_root r then 1%nat else 0%nat
  | [] => 0%nat
  end.

Definition as_posix (p : Path) : string :=
  match p with
  | [] => "."
  | r :: rest => if is_root r then r +:+ join "/" rest else join "/" p
  end.

(** [Path(s)]: one leading slash, or three and more, is the root [/], two
    are the root [//]; empty and [.] components are dropped. *)
Definition root_of (s : string) : list string :=
  match leading "/" s with
  | 0%nat => []
  | 2%nat => ["//"]
  | _ => ["/"]
  end.

Definition of_str (s : string) : Path :=
  root_of s ++ filter (λ x, x ≠ "" ∧ x ≠ ".") (split "/" s).

Definition name (p : Path) : string :=
  if decide (length p = anchor_len p) then "" else List.last p "".

Definition stem (p : Path) : string :=
  let name := name p in
  match rfind "." name with
  | Some i =>
      if decide (0 < i < String.length name - 1)%nat
      then String.substring 0 i name
      else name
  | None => name
  end.

(** [p / q] *)
Definition truediv (p q : Path) : Path :=
  if decide (anchor_len q = 1%nat) then q else p ++ q.

(** [p.parent] *)
Definition parent (p : Path) : Path :=
  if decide (length p = anchor_len p) then p else removelast p.

(** [p.parents]: the logical ancestors, nearest first, down to the root
    or to [.]. *)
Fixpoint parents_from (anchor n : nat) (p : Path) : list Path :=
  match n with
  | O => []
  | S n' => take (anchor + n') p :: parents_from anchor n' p
  end.
Definition parents (p : Path) : list Path :=
  parents_from (anchor_len p) (length p - anchor_len p) p.

Fixpoint strip_prefix (base p : Path) : option Path :=
  match base, p with
  | [], _ => Some p
  | b :: base', x :: p' => if decide (b = x) then strip_prefix base' p' else None
  | _ :: _, [] => None
  end.

(** [p.relative_to(base)]: [p] without the parts of [base], which it has
    to start with.  Against the empty path [.] only a path without a root
    is relative. *)
Definition relative_to (p base : Path) : result Path :=
  match base with
  | [] => if decide (anchor_len p = 0%nat) then Ok p else Raise ValueError
  | _ :: _ =>
      match strip_prefix base p with
      | Some r => Ok r
      | None => Raise ValueError
      end
  end.

(** A part below the root, as the constructor produces it. *)
Definition part_ok (x : string) : Prop :=
  x ≠ "" ∧ x ≠ "." ∧ rfind "/" x = None.

Definition wf (p : Path) : Prop := Forall part_ok (drop (anchor_len p) p).

#[global] Instance part_ok_dec x : Decision (part_ok x).
Proof. unfold part_ok. apply _. Defined.

#[global] Instance wf_dec p : Decision (wf p).
Proof. unfold wf. apply _. Defined.

End pathlib.
Import pathlib.

Infix "/ₚ" := truediv (at level 40, left associativity).

(** ** Values stored in the dotfile *)

Definition datetime : Type := Z.

(** What a table inside the dotfile holds under one key: a list of strings
    (a dependency list) or a dict of strings (the hashes of one file). *)
Inductive pyleaf : Type :=
| LList (l : list string)
| LDict (m : gmap string string).

Inductive pyval : Type :=
| PNone
| PTime (t : datetime)
| PStr (s : string)
| PList (l : list string)
| PDict (d : gmap string pyleaf).

Definition is_PNone (v : pyval) : bool :=
  match v with PNone => true | _ => false end.

(** [s in sub]-style substring test of Python's [str.__contains__]. *)
Definition str_contains (s sub : string) : bool :=
  match String.index 0 sub s with
  | Some _ => true
  | None => false
  end.

(** [x in leaf] *)
Definition leaf_in (x : string) (leaf : pyleaf) : bool :=
  match leaf with
  | LList l => bool_decide (x ∈ l)
  | LDict m => bool_decide (is_Some (m !! x))
  end.

(** [x in v] for a string [x] *)
Definition py_in (x : string) (v : pyval) : result bool :=
  match v with
  | PNone => Raise TypeError
  | PTime _ => Raise TypeError
  | PStr s => Ok (str_contains s x)
  | PList l => Ok (bool_decide (x ∈ l))
  | PDict d => Ok (bool_decide (is_Some (d !! x)))
  end.

(** [v[k] = x] for a string [k] *)
Definition py_setitem (v : pyval) (k : string) (x : pyleaf) : result pyval :=
  match v with
  | PDict d => Ok (PDict (<[k := x]> d))
  | _ => Raise TypeError
  end.

(** [v.pop(k)] for a string [k]; the popped value is dropped. *)
Definition py_pop (v : pyval) (k : string) : result pyval :=
  match v with
  | PDict d =>
      match d !! k with
      | Some _ => Ok (PDict (delete k d))
      | None => Raise KeyError
      end
  | PList _ => Raise TypeError
  | _ => Raise AttributeError
  end.

(** [v.keys()], in iteration order *)
Definition py_keys (v : pyval) : result (list string) :=
  match v with
  | PDict d => Ok (map_to_list d).*1
  | _ => Raise AttributeError
  end.

(** [v[k]] for a string [k] and a [v] that has keys *)
Definition py_getitem_leaf (v : pyval) (k : string) : result pyleaf :=
  match v with
  | PDict d =>
      match d !! k with
      | Some x => Ok x
      | None => Raise KeyError
      end
  | _ => Raise TypeError
  end.

(** ** [file_handling.File], as its constructor is called *)
Record File : Type := mkFile {
  path : Path;
  modified_time : datetime;
  processed_time : option datetime;
}.

(** ** dotfile_mod.py *)
Module dotfile_mod.

Definition PROCESSED_TIME_FIELD : string := "processed_time".
Definition SEEN_FILES_FIELD : string := "seen_files".
Definition INJECT_CLIENTS_FIELD : string := "injection_clients".

Definition update_dotfile_after_saving
    (dotfile : gmap string pyval) (now : datetime) (seen_files : list File)
  : gmap string pyval :=
  let dotfile := <[PROCESSED_TIME_FIELD := PTime now]> dotfile in
  <[SEEN_FILES_FIELD := PList ((λ file, as_posix (path file)) <$> seen_files)]> dotfile.

Definition update_dotfile_injection_clients
    (dotfile : gmap string pyval) (clientscript : Path) (dependencies : list Path)
  : result (gmap string pyval) :=
  let dotfile :=
    match dotfile !! INJECT_CLIENTS_FIELD with
    | None => <[INJECT_CLIENTS_FIELD := PDict ∅]> dotfile
    | Some _ => dotfile
    end in
  match dotfile !! INJECT_CLIENTS_FIELD with
  | None => Raise KeyError
  | Some table =>
      if decide (0 < length dependencies)%nat then
        table' ← py_setitem table (as_posix clientscript)
                   (LList (as_posix <$> dependencies));
        Ok (<[INJECT_CLIENTS_FIELD := table']> dotfile)
      else
        present ← py_in (as_posix clientscript) table;
        if present : bool then
          table' ← py_pop table (as_posix clientscript);
          Ok (<[INJECT_CLIENTS_FIELD := table']> dotfile)
        else Ok dotfile
  end.

Definition get_clients_for_injection
    (dotfile : gmap string pyval) (injectionscript : Path) : result (list Path) :=
  match dotfile !! INJECT_CLIENTS_FIELD with
  | None => Ok []
  | Some table =>
      let str_path := as_posix injectionscript in
      keys ← py_keys table;
      foldl (λ acc key,
               clientslist ← acc;
               deps ← py_getitem_leaf table key;
               if leaf_in str_path deps
               then Ok (clientslist ++ [of_str key])
               else Ok clientslist)
            (Ok []) keys
  end.

Definition get_processed_time
    (dotfile : gmap string pyval) (path : Path) : result pyval :=
  let seen_files := default (PList []) (dotfile !! SEEN_FILES_FIELD) in
  let seen_files := if is_PNone seen_files then PList [] else seen_files in
  seen ← py_in (as_posix path) seen_files;
  if seen : bool
  then Ok (default PNone (dotfile !! PROCESSED_TIME_FIELD))
  else Ok PNone.

(** The versions recorded in the dotfile. *)
Definition LIBRARY_VERSION_FIELD : string := "library_version".

Definition get_library_version_string (dotfile : gmap string pyval) : pyval :=
  default PNone (dotfile !! LIBRARY_VERSION_FIELD).

Definition ASSISTANT_VERSION_FIELD : string := "assistant_version".

Definition get_assistant_version_string (dotfile : gmap string pyval) : pyval :=
  default PNone (dotfile !! ASSISTANT_VERSION_FIELD).

End dotfile_mod.

(** Modelled from the spec: [File.is_fresh] of [file_handling.py], which is
    not among the sources.  Section 3 (TrackedFile): a file requires
    reprocessing iff it was never processed or its modification time is
    strictly later than its processing time. *)
Definition is_fresh (f : File) : bool :=
  match processed_time f with
  | None => true
  | Some t => bool_decide (modified_time f > t)
  end.

(** [mapM] over a list, for the exceptions of a comprehension. *)
Fixpoint for_all {A B} (f : A → result B) (l : list A) : result (list B) :=
  match l with
  | [] => Ok []
  | x :: l' => y ← f x; ys ← for_all f l'; Ok (y :: ys)
  end.

(** ** aseprite_handling/aseprites.py *)
Module Tag.
Record t {TagColor : Type} : Type := mk {
  name : string;
  start : Z;
  end_ : Z;
  color : TagColor;
}.
Arguments t : clear implicits.
Arguments mk {TagColor}.
End Tag.

Module Window.
Record t : Type := mk {
  name : string;
  start : Z;
  end_ : Z;
}.
End Window.

(** What the parser gives for the bytes of an Aseprite file. *)
Module RawAsepriteFile.
Record t {TagColor : Type} : Type := mk {
  get_num_frames : Z;
  get_tags : list (Tag.t TagColor);
}.
Arguments t : clear implicits.
Arguments mk {TagColor}.
End RawAsepriteFile.

Module AsepriteFileContent.
Record t {TagColor : Type} : Type := mk {
  file_data : RawAsepriteFile.t TagColor;
  anim_tag_colors : list TagColor;
  window_tag_colors : list TagColor;
  layer_tag_colors : list TagColor;
  is_fresh : bool;
}.
Arguments t : clear implicits.
Arguments mk {TagColor}.

Section defs.
Context {TagColor : Type}.

(** [__init__]; an argument that the caller does not give is [None] here.
    [layer_tag_colors] has no default.  The layers, which the constructor
    reads off the file data, play no part below. *)
Definition new
    (anim_tag_colors window_tag_colors : list TagColor)
    (layer_tag_colors : option (list TagColor))
    (file_data : RawAsepriteFile.t TagColor)
    (is_fresh : option bool) : result (t TagColor) :=
  match layer_tag_colors with
  | None => Raise TypeError
  | Some layer_tag_colors =>
      Ok (mk file_data anim_tag_colors window_tag_colors layer_tag_colors
             (default false is_fresh))
  end.

Definition num_frames (self : t TagColor) : Z :=
  RawAsepriteFile.get_num_frames (file_data self).

Definition tags (self : t TagColor) : list (Tag.t TagColor) :=
  RawAsepriteFile.get_tags (file_data self).

(** [from_path]; [read path] is [RawAsepriteFile(contents)] for the bytes
    of the file at [path]. *)
Definition from_path (read : Path → RawAsepriteFile.t TagColor)
    (path : Path) (anim_tag_colors window_tag_colors : list TagColor)
    (is_fresh : bool) : result (t TagColor) :=
  let raw_aseprite_file := read path in
  new anim_tag_colors window_tag_colors None raw_aseprite_file (Some is_fresh).
End defs.
End AsepriteFileContent.

(** [anim_hashes] is a reference to a dict that lives inside the dotfile,
    under [dotfile["anim_hashes"]]; the reference is the key of that dict. *)
Abbreviation hashes_ref := string (only parsing).

Module Anim.
Record t {TagColor : Type} : Type := mk {
  name : string;
  start : Z;
  end_ : Z;
  windows : list Window.t;
  file_is_fresh : bool;
  content : AsepriteFileContent.t TagColor;
  anim_hashes : option hashes_ref;
}.
Arguments t : clear implicits.
Arguments mk {TagColor}.
End Anim.

(** [run_context.RunContext], as far as it is used. *)
Record RunContext {Config : Type} : Type := mkRunContext {
  root_dir : Path;
  dotfile : gmap string pyval;
  assistant_config : Config;
}.
Arguments RunContext : clear implicits.
Arguments mkRunContext {Config}.

Module aseprites.

Record Aseprite {TagColor : Type} : Type := mkAseprite {
  file : File;
  anim_tag_colors : list TagColor;
  window_tag_colors : list TagColor;
  anim_hashes : option hashes_ref;
  _content : option (AsepriteFileContent.t TagColor);
  _anims : option (list (Anim.t TagColor));
}.
Arguments Aseprite : clear implicits.
Arguments mkAseprite {TagColor}.

Definition ANIM_HASHES_FIELD : string := "anim_hashes".

Section defs.
Context {TagColor Config : Type} `{EqDecision TagColor}.
(** The parser, the clock of the file system and its search, the colours
    of the configuration and the processed time of the dotfile come from
    modules that are not among the sources. *)
Variable read : Path → RawAsepriteFile.t TagColor.
Variable _get_modified_time : Path → datetime.
Variable rglob : Path → string → list Path.
Variables get_anim_tag_color get_window_tag_color : Config → list TagColor.
Variable get_script_processed_time : gmap string pyval → option datetime.

Implicit Type self : Aseprite TagColor.

Definition content self : result (AsepriteFileContent.t TagColor) :=
  match _content self with
  | None =>
      AsepriteFileContent.from_path read (path (file self))
        (anim_tag_colors self) (window_tag_colors self) (is_fresh (file self))
  | Some c => Ok c
  end.

Definition name self : string := stem (path (file self)).

Definition get_windows_in_frame_range self (start end_ : Z)
  : result (list Window.t) :=
  c ← content self;
  let tags_in_frame_range :=
    filter (λ window,
              Tag.color window ∈ window_tag_colors self
              ∧ start ≤ Tag.start window ≤ end_
              ∧ start ≤ Tag.end_ window ≤ end_)
           (AsepriteFileContent.tags c) in
  let windows :=
    (λ tag, Window.mk (Tag.name tag)
                      (Tag.start tag - start + 1)
                      (Tag.end_ tag - start + 1))
      <$> tags_in_frame_range in
  Ok windows.

Definition make_anim_with_windows_in_range self
    (name : string) (start end_ : Z) (file_is_fresh : bool)
    (content : AsepriteFileContent.t TagColor)
    (anim_hashes : option hashes_ref) : result (Anim.t TagColor) :=
  windows ← get_windows_in_frame_range self start end_;
  Ok (Anim.mk name start end_ windows file_is_fresh content anim_hashes).

Definition get_anims self : result (list (Anim.t TagColor)) :=
  c ← content self;
  tag_anims ←
    for_all (λ tag,
               c ← content self;
               make_anim_with_windows_in_range self
                 (Tag.name tag) (Tag.start tag) (Tag.end_ tag)
                 (is_fresh (file self)) c (anim_hashes self))
            (filter (λ tag, Tag.color tag ∈ anim_tag_colors self)
                    (AsepriteFileContent.tags c));
  match tag_anims with
  | _ :: _ => Ok tag_anims
  | [] =>
      c ← content self;
      anim ← make_anim_with_windows_in_range self
                (name self) 0 (AsepriteFileContent.num_frames c - 1)
                (is_fresh (file self)) c (anim_hashes self);
      Ok [anim]
  end.

Definition anims self : result (list (Anim.t TagColor)) :=
  match _anims self with
  | None => get_anims self
  | Some anims => Ok anims
  end.

(** [d.setdefault(ANIM_HASHES_FIELD, {}).setdefault(key, {})] on the
    dotfile: the dotfile afterwards and the key of the dict handed out. *)
Definition setdefault_anim_hashes
    (dotfile : gmap string pyval) (key : string)
  : result (gmap string pyval * hashes_ref) :=
  let '(dotfile, outer) :=
    match dotfile !! ANIM_HASHES_FIELD with
    | Some v => (dotfile, v)
    | None => (<[ANIM_HASHES_FIELD := PDict ∅]> dotfile, PDict ∅)
    end in
  match outer with
  | PDict d =>
      match d !! key with
      | Some _ => Ok (dotfile, key)
      | None =>
          Ok (<[ANIM_HASHES_FIELD := PDict (<[key := LDict ∅]> d)]> dotfile, key)
      end
  | _ => Raise AttributeError
  end.

Definition read_aseprite
    (run_context : RunContext Config) (path : Path)
    (processed_time : option datetime)
  : result (RunContext Config * Aseprite TagColor) :=
  let processed_time :=
    match processed_time with
    | None => get_script_processed_time (dotfile run_context)
    | Some t => Some t
    end in
  '(dotfile, ref) ← setdefault_anim_hashes (dotfile run_context) (stem path);
  let aseprite :=
    mkAseprite (mkFile path (_get_modified_time path) processed_time)
               (get_anim_tag_color (assistant_config run_context))
               (get_window_tag_color (assistant_config run_context))
               (Some ref) None None in
  Ok (mkRunContext (root_dir run_context) dotfile (assistant_config run_context),
      aseprite).

Fixpoint read_each (run_context : RunContext Config) (ase_paths : list Path)
    (processed_time : option datetime)
  : result (RunContext Config * list (Aseprite TagColor)) :=
  match ase_paths with
  | [] => Ok (run_context, [])
  | path :: ase_paths' =>
      '(run_context, aseprite) ← read_aseprite run_context path processed_time;
      '(run_context, aseprites) ← read_each run_context ase_paths' processed_time;
      Ok (run_context, aseprite :: aseprites)
  end.

Definition read_aseprites (run_context : RunContext Config)
  : result (RunContext Config * list (Aseprite TagColor)) :=
  let ase_paths :=
    rglob (root_dir run_context /ₚ of_str "anims") "*.ase"
    ++ rglob (root_dir run_context /ₚ of_str "anims") "*.aseprite" in
  let processed_time := get_script_processed_time (dotfile run_context) in
  read_each run_context ase_paths processed_time.

End defs.

(** The dict behind a reference. *)
Definition deref (dotfile : gmap string pyval) (ref : hashes_ref) : result pyleaf :=
  match dotfile !! ANIM_HASHES_FIELD with
  | Some table => py_getitem_leaf table ref
  | None => Raise KeyError
  end.

(** [anim_hashes.get(anim_name)] through the reference. *)
Definition lookup_hash (dotfile : gmap string pyval) (ref : hashes_ref)
    (anim_name : string) : result (option string) :=
  leaf ← deref dotfile ref;
  match leaf with
  | LDict m => Ok (m !! anim_name)
  | LList _ => Raise AttributeError
  end.

(** Modelled from the spec: the write of [anims.py], which is not among
    the sources.  Section 4.3: [record] overwrites the entry of the
    animation with the fingerprint; here it is the item assignment
    [anim_hashes[anim_name] = fingerprint] through the reference. *)
Definition record_hash (dotfile : gmap string pyval) (ref : hashes_ref)
    (anim_name fingerprint : string) : result (gmap string pyval) :=
  leaf ← deref dotfile ref;
  match leaf, dotfile !! ANIM_HASHES_FIELD with
  | LDict m, Some (PDict d) =>
      Ok (<[ANIM_HASHES_FIELD :=
              PDict (<[ref := LDict (<[anim_name := fingerprint]> m)]> d)]> dotfile)
  | _, _ => Raise TypeError
  end.

End aseprites.

(** ** The outside world of [Aseprite.save]

    The set of files on disk, and the log of what was asked of the
    operating system, in order.  What the export tool itself writes is its
    own business: running it is a log entry. *)
Inductive event : Type :=
| Remove (p : Path)
| Mkdir (p : Path)
| Run (command : string).

Record world : Type := mkWorld {
  files : gset Path;
  log : list event;
}.

Definition io (A : Type) : Type := world → world * result A.

#[global] Instance io_ret : MRet io := λ A a w, (w, Ok a).
#[global] Instance io_bind : MBind io := λ A B f m w,
  match m w with
  | (w', Ok a) => f a w'
  | (w', Raise e) => (w', Raise e)
  end.

Definition lift {A} (r : result A) : io A := λ w, (w, r).

Definition emit (e : event) : io () :=
  λ w, (mkWorld (files w) (log w ++ [e]), Ok ()).

Fixpoint for_each {A} (f : A → io ()) (l : list A) : io () :=
  match l with
  | [] => mret ()
  | x :: l' => f x ;; for_each f l'
  end.

(** An entry of [dir] that [pattern] matches, by the matcher [fnmatch]. *)
Definition matching (fnmatch : string → string → bool)
    (dir : Path) (pattern : string) (p : Path) : Prop :=
  p ≠ dir ∧ parent p = dir ∧ fnmatch (name p) pattern = true.

#[global] Instance matching_dec fnmatch dir pattern p :
  Decision (matching fnmatch dir pattern p).
Proof. unfold matching. apply _. Defined.

Section os.
(** [fnmatch name pattern]: the shell-style matcher of the standard
    library, which [Path.glob] applies to the entries of a directory. *)
Variable fnmatch : string → string → bool.

(** [dir.glob(pattern)] for a pattern without separators.  The world
    holds regular files only, so these are what is found; they come in the
    order of [elements], the listing of a directory having no order of its
    own. *)
Definition glob (dir : Path) (pattern : string) : io (list Path) :=
  λ w, (w, Ok (elements (filter (matching fnmatch dir pattern) (files w)))).

(** [os.remove(p)] *)
Definition os_remove (p : Path) : io () :=
  λ w, if decide (p ∈ files w)
       then (mkWorld (files w ∖ {[p]}) (log w ++ [Remove p]), Ok ())
       else (w, Raise FileNotFoundError).

(** [p.mkdir(parents=True, exist_ok=True)] *)
Definition mkdir (p : Path) : io () := emit (Mkdir p).

(** [program_exists name]: the operating system finds a program to
    execute under [name]. *)
Variable program_exists : string → bool.

(** [subprocess.run(command)] for a command that is one string, without
    [shell=True]: the whole string, spaces and quotes included, is the name
    of the program to execute, and the call raises [FileNotFoundError] when
    there is no program of that name.  The exit status of the program is
    not looked at. *)
Definition subprocess_run (command : string) : io () :=
  if program_exists command then emit (Run command)
  else lift (Raise FileNotFoundError).
End os.

(** ** aseprite_handling/__init__.py *)
Module aseprite_handling.

Record Anim : Type := mkAnim { name : string }.

Record AsepriteTag {TagColor : Type} : Type := mkAsepriteTag {
  start : Z;
  end_ : Z;
  color : TagColor;
}.
Arguments AsepriteTag : clear implicits.
Arguments mkAsepriteTag {TagColor}.

Definition get_anims {TagColor} (tags : list (AsepriteTag TagColor)) : list Anim := [].

Record AsepriteData {TagColor : Type} : Type := mkAsepriteData {
  tags : list (AsepriteTag TagColor);
  anims : list Anim;
}.
Arguments AsepriteData : clear implicits.
Arguments mkAsepriteData {TagColor}.

(** [AsepriteData(tags)] *)
Definition new_AsepriteData {TagColor} (tags : option (list (AsepriteTag TagColor)))
  : AsepriteData TagColor :=
  let tags := default [] tags in
  mkAsepriteData tags (get_anims tags).

(** What [Aseprite] can hold as its content: an [AsepriteData], which is
    what [from_path] builds and which has the attributes [tags] and
    [anims] only, or an object handed to the constructor that has a
    [frames] attribute; no class of the module has one. *)
Inductive content_obj {TagColor Frame : Type} : Type :=
| Data (d : AsepriteData TagColor)
| WithFrames (frames : list Frame).
Arguments content_obj : clear implicits.

(** [c.frames] *)
Definition get_frames {TagColor Frame} (c : content_obj TagColor Frame)
  : result (list Frame) :=
  match c with
  | Data _ => Raise AttributeError
  | WithFrames frames => Ok frames
  end.

Record Aseprite {TagColor Frame : Type} : Type := mkAseprite {
  file : File;
  _content : option (content_obj TagColor Frame);
}.
Arguments Aseprite : clear implicits.
Arguments mkAseprite {TagColor Frame}.

(** The double quote character of the command line. *)
Definition dquote : string := String (ascii_of_nat 34) "".
Definition quoted (s : string) : string := dquote +:+ s +:+ dquote.

Section defs.
Context {TagColor Frame : Type}.
(** [paths.ANIMS_FOLDER] and [paths.SPRITES_FOLDER] *)
Variables ANIMS_FOLDER SPRITES_FOLDER : Path.
(** [RawAsepriteFile(contents).get_tags()] of the file at a path *)
Variable get_tags : Path → list (AsepriteTag TagColor).
Variable fnmatch : string → string → bool.
Variable program_exists : string → bool.

Implicit Type self : Aseprite TagColor Frame.

Definition from_path (path : Path) : AsepriteData TagColor :=
  new_AsepriteData (Some (get_tags path)).

Definition content self : content_obj TagColor Frame :=
  match _content self with
  | None => Data (from_path (path (file self)))
  | Some c => c
  end.

(** The property [name] of [Aseprite]. *)
Definition Aseprite_name self : string := stem (path (file self)).

Definition get_sprite_base_name self (root_dir : Path) : result string :=
  relative_path ← relative_to (path (file self)) (root_dir /ₚ ANIMS_FOLDER);
  let subfolders :=
    let l := parents relative_path in take (length l - 1) l in
  let path_parts := (pathlib.name <$> reverse subfolders) ++ [Aseprite_name self] in
  let base_name := join "_" path_parts in
  Ok base_name.

Definition _delete_old_save self (root_dir : Path) : io () :=
  base_name ← lift (get_sprite_base_name self root_dir);
  old_paths ← glob fnmatch (root_dir /ₚ SPRITES_FOLDER) (base_name +:+ "_strip*.png");
  for_each os_remove old_paths.

(** In the command, a path is written as [str] gives it, which for this
    flavour is [as_posix]. *)
Definition save self (root_dir aseprite_path : Path) (has_small_sprites : bool)
  : io () :=
  _delete_old_save self root_dir ;;
  frames ← lift (get_frames (content self));
  let num_frames := length frames in
  base_name ← lift (get_sprite_base_name self root_dir);
  let dest_name := base_name +:+ "_strip" +:+ pretty num_frames +:+ ".png" in
  let dest := root_dir /ₚ SPRITES_FOLDER /ₚ [dest_name] in
  mkdir (parent dest) ;;
  let export_command :=
    join " " [ quoted (as_posix aseprite_path);
               "-b";
               quoted (as_posix (path (file self)));
               "--scale " +:+ pretty ((if has_small_sprites then 1 else 0) + 1)%nat;
               "--sheet " +:+ quoted (as_posix dest) ] in
  subprocess_run program_exists export_command.

End defs.

End aseprite_handling.

(** What [get_processed_time] returns, as the [processed_time] of a
    [File]: [None] or a time; comparing anything else with a time raises. *)
Definition as_processed_time (v : pyval) : result (option datetime) :=
  match v with
  | PNone => Ok None
  | PTime t => Ok (Some t)
  | _ => Raise TypeError
  end.

(** Modelled from the spec: the freshness check of section 4.1,
    [is_stale(path, modified_time)], whose caller and whose [File] class are
    not among the sources.  The processed time of a path is what
    [get_processed_time] finds in the dotfile; the comparison is
    [is_fresh]. *)
Definition is_stale (dotfile : gmap string pyval) (path : Path)
    (modified_time : datetime) : result bool :=
  v ← dotfile_mod.get_processed_time dotfile path;
  processed_time ← as_processed_time v;
  Ok (is_fresh (mkFile path modified_time processed_time)).

(** ** Views of the dotfile used in the statements *)
Import dotfile_mod.

(** The persisted list of seen paths; absent and null count as empty. *)
Definition seen_paths (dotfile : gmap string pyval) : list string :=
  match dotfile !! SEEN_FILES_FIELD with
  | Some (PList l) => l
  | _ => []
  end.

Definition seen_files_ok (dotfile : gmap string pyval) : Prop :=
  match dotfile !! SEEN_FILES_FIELD with
  | None | Some PNone | Some (PList _) => True
  | _ => False
  end.

(** The dependency table; an absent one has no entries. *)
Definition clients_table (dotfile : gmap string pyval) : gmap string pyleaf :=
  match dotfile !! INJECT_CLIENTS_FIELD with
  | Some (PDict t) => t
  | _ => ∅
  end.

Definition clients_table_ok (dotfile : gmap string pyval) : Prop :=
  match dotfile !! INJECT_CLIENTS_FIELD with
  | None | Some (PDict _) => True
  | _ => False
  end.

(** Keys as [as_posix] writes them: reading one back as a path and
    rendering it again gives the same string. *)
Definition canonical (key : string) : Prop := as_posix (of_str key) = key.

Definition canonical_keys (t : gmap string pyleaf) : Prop :=
  map_Forall (λ key _, canonical key) t.

Definition no_empty_entry (t : gmap string pyleaf) : Prop :=
  map_Forall (λ _ deps, deps ≠ LList []) t.

(** An entry whose dependencies contain [dep]. *)
Definition depends_on (dep : string) (kv : string * pyleaf) : Prop :=
  leaf_in dep kv.2 = true.

(** The table after [clientscript] is recorded with [dependencies]. *)
Definition updated_table (t : gmap string pyleaf)
    (clientscript : Path) (dependencies : list Path) : gmap string pyleaf :=
  match dependencies with
  | [] => delete (as_posix clientscript) t
  | _ :: _ => <[as_posix clientscript := LList (as_posix <$> dependencies)]> t
  end.

(** A run of calls of [update_dotfile_injection_clients], one after the
    other on the same dotfile. *)
Fixpoint record_all (dotfile : gmap string pyval)
    (calls : list (Path * list Path)) : result (gmap string pyval) :=
  match calls with
  | [] => Ok dotfile
  | (clientscript, dependencies) :: calls' =>
      dotfile' ← update_dotfile_injection_clients dotfile clientscript dependencies;
      record_all dotfile' calls'
  end.

#[global] Instance pyleaf_eq_dec : EqDecision pyleaf.
Proof. solve_decision. Defined.

#[global] Instance canonical_dec key : Decision (canonical key).
Proof. unfold canonical. apply _. Defined.

#[global] Instance canonical_keys_dec t : Decision (canonical_keys t).
Proof. unfold canonical_keys. apply _. Defined.

#[global] Instance no_empty_entry_dec t : Decision (no_empty_entry t).
Proof. unfold no_empty_entry. apply _. Defined.

#[global] Instance depends_on_dec dep kv : Decision (depends_on dep kv).
Proof. unfold depends_on. apply _. Defined.

#[global] Instance seen_files_ok_dec d : Decision (seen_files_ok d).
Proof. unfold seen_files_ok. repeat case_match; apply _. Defined.

#[global] Instance clients_table_ok_dec d : Decision (clients_table_ok d).
Proof. unfold clients_table_ok. repeat case_match; apply _. Defined.

#[global] Instance Tag_eq_dec `{EqDecision TagColor} : EqDecision (Tag.t TagColor).
Proof. solve_decision. Defined.

#[global] Instance Window_eq_dec : EqDecision Window.t.
Proof. solve_decision. Defined.

#[global] Instance RawAsepriteFile_eq_dec `{EqDecision TagColor} :
  EqDecision (RawAsepriteFile.t TagColor).
Proof. solve_decision. Defined.

#[global] Instance AsepriteFileContent_eq_dec `{EqDecision TagColor} :
  EqDecision (AsepriteFileContent.t TagColor).
Proof. solve_decision. Defined.

#[global] Instance Anim_eq_dec `{EqDecision TagColor} : EqDecision (Anim.t TagColor).
Proof. solve_decision. Defined.

(** ** Views of an Aseprite file used in the statements *)
Section aseprite_views.
Context {TagColor : Type} `{EqDecision TagColor}.

(** The same content with other tags. *)
Definition content_with_tags (c : AsepriteFileContent.t TagColor)
    (tags : list (Tag.t TagColor)) : AsepriteFileContent.t TagColor :=
  AsepriteFileContent.mk
    (RawAsepriteFile.mk (AsepriteFileContent.num_frames c) tags)
    (AsepriteFileContent.anim_tag_colors c)
    (AsepriteFileContent.window_tag_colors c)
    (AsepriteFileContent.layer_tag_colors c)
    (AsepriteFileContent.is_fresh c).

(** The same file holding the content [c]. *)
Definition with_content (self : aseprites.Aseprite TagColor)
    (c : AsepriteFileContent.t TagColor) : aseprites.Aseprite TagColor :=
  aseprites.mkAseprite (aseprites.file self)
    (aseprites.anim_tag_colors self) (aseprites.window_tag_colors self)
    (aseprites.anim_hashes self) (Some c) (aseprites._anims self).

(** The window that [get_windows_in_frame_range] makes of a tag. *)
Definition window_of_tag (start : Z) (tag : Tag.t TagColor) : Window.t :=
  Window.mk (Tag.name tag) (Tag.start tag - start + 1) (Tag.end_ tag - start + 1).

(** Both ends of the tag lie in the frame range. *)
Definition in_frame_range (start end_ : Z) (tag : Tag.t TagColor) : Prop :=
  start ≤ Tag.start tag ≤ end_ ∧ start ≤ Tag.end_ tag ≤ end_.
End aseprite_views.

(** A matcher for patterns whose only special character is [*]. *)
Fixpoint star_match (pattern : string) : string → bool :=
  match pattern with
  | EmptyString => λ s, bool_decide (s = "")
  | String c pattern' =>
      if decide (c = "*"%char) then
        fix skip (s : string) : bool :=
          star_match pattern' s
          || match s with
             | EmptyString => false
             | String _ s' => skip s'
             end
      else λ s,
        match s with
        | EmptyString => false
        | String c' s' => bool_decide (c = c') && star_match pattern' s'
        end
  end.

Definition fnmatch_star (name pattern : string) : bool := star_match pattern name.

(** ** Sample data *)
Module sample.

Definition attack : Path := ["scripts"; "attacks"; "attack.gml"].
Definition combo_lib : Path := ["/"; "opt"; "inject"; "combo_lib.gml"].

Definition stored : gmap string pyval :=
  <[SEEN_FILES_FIELD := PList ["scripts/attacks/attack.gml"; "anims/idle.ase"]]>
    (<[PROCESSED_TIME_FIELD := PTime 100]>
       (<[INJECT_CLIENTS_FIELD :=
            PDict (<["scripts/other.gml" := LList ["/opt/inject/combo_lib.gml"]]> ∅)]> ∅)).

(** A dotfile whose seen-files field is null. *)
Definition null_seen : gmap string pyval := <[SEEN_FILES_FIELD := PNone]> ∅.

Definition RED : string := "red".
Definition BLUE : string := "blue".

Definition content_of (num_frames : Z) (tags : list (Tag.t string))
  : AsepriteFileContent.t string :=
  AsepriteFileContent.mk (RawAsepriteFile.mk num_frames tags) [RED] [BLUE] [] true.

(** The end-to-end scenario of the specification. *)
Definition run_content : AsepriteFileContent.t string :=
  content_of 4 [Tag.mk "run" 0 3 RED; Tag.mk "hitbox" 1 2 BLUE].

Definition run_file : aseprites.Aseprite string :=
  aseprites.mkAseprite
    (mkFile ["anims"; "A.ase"] 150 (Some 100)) [RED] [BLUE] None
    (Some run_content) None.

(** A window tag that runs backwards, and one that straddles [run]. *)
Definition odd_content : AsepriteFileContent.t string :=
  content_of 8 [Tag.mk "run" 0 5 RED; Tag.mk "back" 3 1 BLUE;
                Tag.mk "late" 4 7 BLUE; Tag.mk "hit" 1 2 BLUE].

Definition odd_file : aseprites.Aseprite string :=
  aseprites.mkAseprite
    (mkFile ["anims"; "B.ase"] 150 (Some 100)) [RED] [BLUE] None
    (Some odd_content) None.

(** A file without tags, as in the fallback scenario of the specification. *)
Definition bare_file : aseprites.Aseprite string :=
  aseprites.mkAseprite
    (mkFile ["anims"; "fx"; "spark.aseprite"] 150 None) [RED] [BLUE] None
    (Some (content_of 5 [])) None.

Definition no_file : Path → RawAsepriteFile.t string :=
  λ _, RawAsepriteFile.mk 0 [].

(** A run context: the configuration is the pair of colour lists. *)
Definition context : RunContext (list string * list string) :=
  mkRunContext ["proj"] stored ([RED], [BLUE]).

Definition clock : Path → datetime := λ _, 150.
Definition last_run : gmap string pyval → option datetime := λ _, Some 100.

Definition disk : world :=
  mkWorld {[ ["proj"; "sprites"; "idle_strip3.png"];
             ["proj"; "sprites"; "idle_strip12.png"];
             ["proj"; "sprites"; "idle_hurt_strip2.png"];
             ["proj"; "sprites"; "walk_strip4.png"] ]} [].

Definition idle : aseprite_handling.Aseprite string unit :=
  aseprite_handling.mkAseprite
    (mkFile ["proj"; "anims"; "idle.ase"] 150 None)
    (Some (aseprite_handling.WithFrames [(); (); (); ()])).

End sample.

(** ** Views of the table of hashes *)
(** The table of hash dicts in the dotfile; an absent one has no entries. *)
Definition hashes_table (dotfile : gmap string pyval) : gmap string pyleaf :=
  match dotfile !! aseprites.ANIM_HASHES_FIELD with
  | Some (PDict t) => t
  | _ => ∅
  end.

(** The field of the hashes is absent or holds a dict. *)
Definition hashes_table_ok (dotfile : gmap string pyval) : Prop :=
  match dotfile !! aseprites.ANIM_HASHES_FIELD with
  | None | Some (PDict _) => True
  | _ => False
  end.

#[global] Instance hashes_table_ok_dec d : Decision (hashes_table_ok d).
Proof. unfold hashes_table_ok. repeat case_match; apply _. Defined.

(** [t.setdefault(key, {})] as a table: an entry that is there stays, a
    missing one becomes the empty dict. *)
Definition with_hash_entry (t : gmap string pyleaf) (key : string)
  : gmap string pyleaf :=
  match t !! key with
  | Some _ => t
  | None => <[key := LDict ∅]> t
  end.

(** ** More sample data *)
Module sample_more.

Definition other : Path := ["scripts"; "other.gml"].

(** A dotfile whose dependency table and whose table of hashes are null. *)
Definition null_tables : gmap string pyval :=
  <[INJECT_CLIENTS_FIELD := PNone]> (<[aseprites.ANIM_HASHES_FIELD := PNone]> ∅).

(** The search of the file system: two [.ase] files and one [.aseprite]
    file below the folder. *)
Definition finder (dir : Path) (pattern : string) : list Path :=
  if decide (pattern = "*.ase")
  then [dir ++ ["idle.ase"]; dir ++ ["fx"; "spark.ase"]]
  else [dir ++ ["walk.aseprite"]].

(** An Aseprite file of the export module without content of its own. *)
Definition loaded : aseprite_handling.Aseprite string unit :=
  aseprite_handling.mkAseprite
    (mkFile ["proj"; "anims"; "idle.ase"] 150 None) None.

Definition nested : aseprite_handling.Aseprite string unit :=
  aseprite_handling.mkAseprite
    (mkFile ["proj"; "anims"; "fx"; "big"; "spark.ase"] 150 None) None.

(** One that does not lie below the folder of the animations. *)
Definition stray : aseprite_handling.Aseprite string unit :=
  aseprite_handling.mkAseprite
    (mkFile ["elsewhere"; "idle.ase"] 150 None) None.

(** [sample.stored] after [sample.attack] is recorded with the one
    dependency [sample.combo_lib]. *)
Definition stored_with_attack : gmap string pyval :=
  <[INJECT_CLIENTS_FIELD :=
      PDict (<["scripts/attacks/attack.gml" := LList ["/opt/inject/combo_lib.gml"]]>
               (<["scripts/other.gml" := LList ["/opt/inject/combo_lib.gml"]]> ∅))]>
    sample.stored.

(** [sample.disk] once the strips of [idle] are removed. *)
Definition disk_without_idle : world :=
  mkWorld {[ ["proj"; "sprites"; "idle_hurt_strip2.png"];
             ["proj"; "sprites"; "walk_strip4.png"] ]}
          [Remove ["proj"; "sprites"; "idle_strip3.png"];
           Remove ["proj"; "sprites"; "idle_strip12.png"]].

End sample_more.

(** ** Facts about paths *)
Section pathlib_facts.

Lemma rfind_None_cons c a s :
  rfind c (String a s) = None ↔ a ≠ c ∧ rfind c s = None.
Proof.
  simpl. destruct (rfind c s) as [i|].
  - split; [done | by intros [_ ?]].
  - destruct (decide (a = c)) as [->|Hne]; split; try done.
    by intros [? _].
Qed.

Lemma split_no_sep c x : rfind c x = None → split c x = [x].
Proof.
  induction x as [|a x IH]; [done|].
  intros [Hne Hx]%rfind_None_cons. simpl.
  rewrite decide_False by done. by rewrite IH.
Qed.

Lemma split_app_sep c x rest :
  rfind c x = None →
  split c (x +:+ String c rest) = x :: split c rest.
Proof.
  induction x as [|a x IH]; intros Hx.
  - simpl. by rewrite decide_True.
  - apply rfind_None_cons in Hx as [Hne Hx].
    change (String a x +:+ String c rest) with (String a (x +:+ String c rest)).
    simpl. rewrite decide_False by done. by rewrite IH.
Qed.

Lemma split_join c l :
  l ≠ [] → Forall (λ x, rfind c x = None) l →
  split c (join (String c "") l) = l.
Proof.
  intros Hl Hall. induction Hall as [|x l Hx Hall IH]; [done|].
  destruct l as [|y l].
  - simpl. by apply split_no_sep.
  - change (join (String c "") (x :: y :: l))
      with (x +:+ String c (join (String c "") (y :: l))).
    rewrite split_app_sep by done. f_equal. by apply IH.
Qed.

Lemma components_join l :
  Forall part_ok l →
  filter (λ x, x ≠ "" ∧ x ≠ ".") (split "/" (join "/" l)) = l.
Proof.
  intros Hl. destruct l as [|x l]; [done|].
  rewrite (split_join "/"%char)
    by (done || (eapply Forall_impl; [exact Hl|]; by intros ? (?&?&?))).
  induction Hl as [|y q Hy Hq IH]; [done|].
  destruct Hy as (?&?&?). rewrite filter_cons_True by done. by f_equal.
Qed.

Lemma leading_part c x s :
  x ≠ "" → rfind c x = None → leading c (x +:+ s) = 0%nat.
Proof.
  destruct x as [|a x]; [done|]. intros _ [Hne _]%rfind_None_cons.
  change (String a x +:+ s) with (String a (x +:+ s)). simpl.
  by rewrite decide_False.
Qed.

Lemma leading_join l : Forall part_ok l → leading "/" (join "/" l) = 0%nat.
Proof.
  intros Hl. destruct Hl as [|x l (Hx & _ & Hs) Hl]; [done|].
  destruct l as [|y l].
  - simpl. destruct x as [|a x]; [done|].
    apply rfind_None_cons in Hs as [Hne _]. simpl. by rewrite decide_False.
  - change (join "/" (x :: y :: l)) with (x +:+ "/" +:+ join "/" (y :: l)).
    by apply leading_part.
Qed.

(** [Path(p.as_posix()) == p] *)
Lemma of_str_as_posix p : wf p → of_str (as_posix p) = p.
Proof.
  unfold wf. destruct p as [|r rest]; [done|].
  unfold as_posix, anchor_len. destruct (is_root r) eqn:Hr; cbn [drop].
  - intros Hrest. apply bool_decide_eq_true in Hr as [-> | ->].
    + unfold of_str, root_of.
      change ("/" +:+ join "/" rest) with (String "/" (join "/" rest)).
      cbn [leading split]. rewrite !decide_True by done.
      rewrite leading_join by done.
      rewrite filter_cons_False by (by intros [? ?]). by rewrite components_join.
    + unfold of_str, root_of.
      change ("//" +:+ join "/" rest) with (String "/" (String "/" (join "/" rest))).
      cbn [leading split]. rewrite !decide_True by done.
      rewrite leading_join by done.
      rewrite !filter_cons_False by (by intros [? ?]). by rewrite components_join.
  - intros Hp. unfold of_str, root_of.
    rewrite leading_join by done. by rewrite components_join.
Qed.

Lemma as_posix_canonical p : wf p → canonical (as_posix p).
Proof. intros Hwf. unfold canonical. by rewrite of_str_as_posix. Qed.

Lemma as_posix_inj p q : wf p → wf q → as_posix p = as_posix q → p = q.
Proof.
  intros Hp Hq Heq.
  rewrite <-(of_str_as_posix p), <-(of_str_as_posix q) by done.
  by rewrite Heq.
Qed.

End pathlib_facts.
(** ** Facts about the dependency table *)
Section injection_clients_facts.

Implicit Type dotfile : gmap string pyval.
Implicit Type t : gmap string pyleaf.

Lemma clients_loop t dep kvs acc :
  (∀ k v, (k, v) ∈ kvs → t !! k = Some v) →
  foldl (λ acc key,
           clientslist ← acc;
           deps ← py_getitem_leaf (PDict t) key;
           if leaf_in dep deps
           then Ok (clientslist ++ [of_str key])
           else Ok clientslist)
        (Ok acc) kvs.*1
  = Ok (acc ++ (of_str <$> (filter (depends_on dep) kvs).*1)).
Proof.
  revert acc. induction kvs as [|[k v] kvs IH]; intros acc Hin.
  - simpl. by rewrite app_nil_r.
  - simpl. rewrite (Hin k v) by left. simpl.
    destruct (leaf_in dep v) eqn:Hv.
    + rewrite IH by (intros; apply Hin; by right).
      rewrite filter_cons_True by done. simpl. by rewrite <-app_assoc.
    + rewrite IH by (intros; apply Hin; by right).
      rewrite filter_cons_False; [done|].
      unfold depends_on. simpl. by rewrite Hv.
Qed.

Lemma get_clients_for_injection_eq dotfile q :
  clients_table_ok dotfile →
  get_clients_for_injection dotfile q
  = Ok (of_str <$> (filter (depends_on (as_posix q))
                           (map_to_list (clients_table dotfile))).*1).
Proof.
  unfold clients_table_ok, clients_table, get_clients_for_injection.
  destruct (dotfile !! INJECT_CLIENTS_FIELD) as [[| | | |t]|]; try done.
  intros _. simpl.
  rewrite (clients_loop t (as_posix q) (map_to_list t) []); [done|].
  intros k v. by rewrite elem_of_map_to_list.
Qed.

Lemma elem_of_clients dotfile q p l :
  clients_table_ok dotfile →
  get_clients_for_injection dotfile q = Ok l →
  p ∈ l ↔ ∃ key deps, clients_table dotfile !! key = Some deps
                      ∧ leaf_in (as_posix q) deps = true
                      ∧ p = of_str key.
Proof.
  intros Hok. rewrite get_clients_for_injection_eq by done.
  intros [= <-]. rewrite list_elem_of_fmap. split.
  - intros (key & -> & Hkey). apply list_elem_of_fmap in Hkey as ([k v] & -> & Hkv).
    apply list_elem_of_filter in Hkv as [Hdep Hkv].
    apply elem_of_map_to_list in Hkv. by exists k, v.
  - intros (key & deps & Hkey & Hdep & ->). exists key. split; [done|].
    apply list_elem_of_fmap. exists (key, deps). split; [done|].
    apply list_elem_of_filter. split; [done|]. by apply elem_of_map_to_list.
Qed.

Lemma update_dotfile_injection_clients_eq dotfile clientscript dependencies :
  clients_table_ok dotfile →
  update_dotfile_injection_clients dotfile clientscript dependencies
  = Ok (<[INJECT_CLIENTS_FIELD :=
            PDict (updated_table (clients_table dotfile) clientscript dependencies)]>
          dotfile).
Proof.
  unfold clients_table_ok, clients_table, update_dotfile_injection_clients.
  destruct (dotfile !! INJECT_CLIENTS_FIELD) as [[| | | |t]|] eqn:Hd; try done; intros _.
  - rewrite Hd. destruct dependencies as [|dep deps]; simpl.
    + destruct (t !! as_posix clientscript) as [v|] eqn:Hk; simpl.
      * done.
      * rewrite delete_id by done. by rewrite insert_id.
    + done.
  - rewrite lookup_insert_eq. destruct dependencies as [|dep deps]; simpl.
    + by rewrite delete_empty.
    + by rewrite insert_insert_eq.
Qed.

Lemma clients_table_insert dotfile t :
  clients_table (<[INJECT_CLIENTS_FIELD := PDict t]> dotfile) = t.
Proof. unfold clients_table. by rewrite lookup_insert_eq. Qed.

Lemma clients_table_ok_insert dotfile t :
  clients_table_ok (<[INJECT_CLIENTS_FIELD := PDict t]> dotfile).
Proof. unfold clients_table_ok. by rewrite lookup_insert_eq. Qed.

Lemma updated_table_canonical t c deps :
  wf c → canonical_keys t → canonical_keys (updated_table t c deps).
Proof.
  intros Hc Ht. unfold updated_table. destruct deps.
  - by apply map_Forall_delete.
  - apply map_Forall_insert_2; [by apply as_posix_canonical | done].
Qed.

Lemma updated_table_no_empty t c deps :
  no_empty_entry t → no_empty_entry (updated_table t c deps).
Proof.
  intros Ht. unfold updated_table. destruct deps.
  - by apply map_Forall_delete.
  - by apply map_Forall_insert_2.
Qed.

Lemma record_all_no_empty calls : ∀ dotfile,
  clients_table_ok dotfile →
  no_empty_entry (clients_table dotfile) →
  ∃ dotfile', record_all dotfile calls = Ok dotfile'
              ∧ clients_table_ok dotfile'
              ∧ no_empty_entry (clients_table dotfile').
Proof.
  induction calls as [|[c deps] calls IH]; intros dotfile Hok Hne.
  - by exists dotfile.
  - simpl. rewrite update_dotfile_injection_clients_eq by done. simpl.
    apply IH.
    + apply clients_table_ok_insert.
    + rewrite clients_table_insert. by apply updated_table_no_empty.
Qed.

(** The keys of a table built by the calls alone are canonical. *)
Lemma record_all_canonical calls : ∀ dotfile,
  clients_table_ok dotfile →
  canonical_keys (clients_table dotfile) →
  Forall (λ call, wf call.1) calls →
  ∃ dotfile', record_all dotfile calls = Ok dotfile'
              ∧ clients_table_ok dotfile'
              ∧ canonical_keys (clients_table dotfile').
Proof.
  induction calls as [|[c deps] calls IH]; intros dotfile Hok Hcan Hwf.
  - by exists dotfile.
  - apply Forall_cons in Hwf as [Hc Hwf]. simpl.
    rewrite update_dotfile_injection_clients_eq by done. simpl.
    apply IH; [apply clients_table_ok_insert | | done].
    rewrite clients_table_insert. by apply updated_table_canonical.
Qed.

Lemma of_str_canonical_inj k1 k2 :
  canonical k1 → canonical k2 → of_str k1 = of_str k2 → k1 = k2.
Proof. unfold canonical. intros H1 H2 Heq. by rewrite <-H1, <-H2, Heq. Qed.

Lemma clients_NoDup t dep :
  canonical_keys t →
  NoDup (of_str <$> (filter (depends_on dep) (map_to_list t)).*1).
Proof.
  intros Ht. apply NoDup_fmap_2_strong.
  - intros k1 k2 Hk1 Hk2. apply of_str_canonical_inj.
    + apply list_elem_of_fmap in Hk1 as ([k v] & -> & Hkv).
      apply list_elem_of_filter in Hkv as [_ Hkv].
      apply elem_of_map_to_list in Hkv. by apply (Ht k v).
    + apply list_elem_of_fmap in Hk2 as ([k v] & -> & Hkv).
      apply list_elem_of_filter in Hkv as [_ Hkv].
      apply elem_of_map_to_list in Hkv. by apply (Ht k v).
  - eapply sublist_NoDup; [apply (NoDup_fst_map_to_list t)|].
    apply fmap_sublist, sublist_filter.
Qed.

End injection_clients_facts.

(** ** The dependency table *)
Section injection_clients_properties.

Implicit Type dotfile : gmap string pyval.

(** C4. Reverse query against forward map.  Once a client is recorded
    with the dependencies [D], [get_clients_for_injection] lists it for
    every member of [D]; once the same client is then recorded with no
    dependencies, [get_clients_for_injection] lists it for no path.  In
    general the query answers with the keys, read as paths and each once,
    of exactly the entries whose dependencies hold the queried path.
    The table is one whose keys were written by [as_posix]. *)
Theorem reverse_query_follows_forward_map dotfile client D :
  clients_table_ok dotfile →
  canonical_keys (clients_table dotfile) →
  wf client →
  ∃ d1 d2,
    update_dotfile_injection_clients dotfile client D = Ok d1
    ∧ (∀ dep, dep ∈ D →
         ∃ l, get_clients_for_injection d1 dep = Ok l ∧ client ∈ l)
    ∧ update_dotfile_injection_clients d1 client [] = Ok d2
    ∧ (∀ dep, ∃ l, get_clients_for_injection d2 dep = Ok l ∧ client ∉ l)
    ∧ (∀ d q, clients_table_ok d →
         ∃ l, get_clients_for_injection d q = Ok l
              ∧ (canonical_keys (clients_table d) → NoDup l)
              ∧ ∀ p, p ∈ l ↔
                     ∃ key deps, clients_table d !! key = Some deps
                                 ∧ leaf_in (as_posix q) deps = true
                                 ∧ p = of_str key).
Proof.
  intros Hok Hcan Hwf.
  set (t1 := updated_table (clients_table dotfile) client D).
  set (d1 := <[INJECT_CLIENTS_FIELD := PDict t1]> dotfile).
  set (t2 := updated_table t1 client []).
  set (d2 := <[INJECT_CLIENTS_FIELD := PDict t2]> d1).
  assert (clients_table_ok d1) as Hok1 by apply clients_table_ok_insert.
  assert (clients_table_ok d2) as Hok2 by apply clients_table_ok_insert.
  assert (clients_table d1 = t1) as Ht1 by apply clients_table_insert.
  assert (clients_table d2 = t2) as Ht2 by apply clients_table_insert.
  assert (canonical_keys t1) as Hcan1 by by apply updated_table_canonical.
  assert (canonical_keys t2) as Hcan2 by by apply updated_table_canonical.
  exists d1, d2. split_and!.
  - by apply update_dotfile_injection_clients_eq.
  - intros dep Hdep. eexists. split; [by apply get_clients_for_injection_eq|].
    apply (elem_of_clients d1 dep client _ Hok1 (get_clients_for_injection_eq d1 dep Hok1)).
    exists (as_posix client), (LList (as_posix <$> D)). split_and!.
    + rewrite Ht1. unfold t1, updated_table.
      destruct D; [by apply elem_of_nil in Hdep|]. apply lookup_insert_eq.
    + simpl. apply bool_decide_eq_true_2. by apply list_elem_of_fmap_2.
    + by rewrite of_str_as_posix.
  - rewrite update_dotfile_injection_clients_eq by done. by rewrite Ht1.
  - intros dep. eexists. split; [by apply get_clients_for_injection_eq|].
    intros Hin.
    apply (elem_of_clients d2 dep client _ Hok2 (get_clients_for_injection_eq d2 dep Hok2)) in Hin.
    destruct Hin as (key & deps & Hkey & _ & Hp).
    rewrite Ht2 in Hkey. unfold t2, updated_table in Hkey.
    apply lookup_delete_Some in Hkey as [Hne Hkey].
    apply Hne. rewrite Hp. by apply (Hcan1 key deps).
  - intros d q Hd. eexists. split; [by apply get_clients_for_injection_eq|split].
    + apply clients_NoDup.
    + intros p. by apply elem_of_clients; [|apply get_clients_for_injection_eq].
Qed.

(** C5. Entries of the dependency table.  Recording a client with an
    empty list leaves no entry for it; recording it with a non-empty list
    makes its entry exactly that list, whatever was there before; other
    entries and other fields stay as they were.  A table without
    empty-list entries stays so, and any run of such calls on a dotfile
    that has no table yet ends with a table without empty-list entries. *)
Theorem dependency_table_entry_invariant dotfile client deps :
  clients_table_ok dotfile →
  ∃ dotfile',
    update_dotfile_injection_clients dotfile client deps = Ok dotfile'
    ∧ clients_table_ok dotfile'
    ∧ (deps = [] → clients_table dotfile' !! as_posix client = None)
    ∧ (deps ≠ [] → clients_table dotfile' !! as_posix client
                   = Some (LList (as_posix <$> deps)))
    ∧ (∀ key, key ≠ as_posix client →
         clients_table dotfile' !! key = clients_table dotfile !! key)
    ∧ (∀ field, field ≠ INJECT_CLIENTS_FIELD →
         dotfile' !! field = dotfile !! field)
    ∧ (no_empty_entry (clients_table dotfile) →
       no_empty_entry (clients_table dotfile'))
    ∧ (∀ d0 calls, d0 !! INJECT_CLIENTS_FIELD = None →
         ∃ d, record_all d0 calls = Ok d ∧ no_empty_entry (clients_table d)).
Proof.
  intros Hok. eexists. split; [by apply update_dotfile_injection_clients_eq|].
  rewrite clients_table_insert. split_and!.
  - apply clients_table_ok_insert.
  - intros ->. apply lookup_delete_eq.
  - intros Hne. destruct deps; [done|]. apply lookup_insert_eq.
  - intros key Hkey. unfold updated_table. destruct deps.
    + by rewrite lookup_delete_ne.
    + by rewrite lookup_insert_ne.
  - intros field Hfield. by rewrite lookup_insert_ne.
  - apply updated_table_no_empty.
  - intros d0 calls Hd0.
    destruct (record_all_no_empty calls d0) as (d & Hd & _ & Hne).
    + unfold clients_table_ok. by rewrite Hd0.
    + unfold clients_table. rewrite Hd0. apply map_Forall_empty.
    + by exists d.
Qed.

(** C10. The queries are total on missing state.  On a dotfile without a
    dependency table [get_clients_for_injection] returns the empty list;
    on a dotfile whose seen-files field is absent or null
    [get_processed_time] returns [None]. *)
Theorem queries_total_on_missing_state dotfile p :
  (dotfile !! INJECT_CLIENTS_FIELD = None →
   get_clients_for_injection dotfile p = Ok [])
  ∧ (dotfile !! SEEN_FILES_FIELD = None ∨ dotfile !! SEEN_FILES_FIELD = Some PNone →
     get_processed_time dotfile p = Ok PNone).
Proof.
  split.
  - intros Hd. unfold get_clients_for_injection. by rewrite Hd.
  - unfold get_processed_time. by intros [-> | ->].
Qed.

End injection_clients_properties.

(** ** Seen files and staleness *)
Section seen_files_properties.

Implicit Type dotfile : gmap string pyval.

Lemma get_processed_time_seen dotfile l p :
  dotfile !! SEEN_FILES_FIELD = Some (PList l) →
  get_processed_time dotfile p
  = Ok (if bool_decide (as_posix p ∈ l)
        then default PNone (dotfile !! PROCESSED_TIME_FIELD)
        else PNone).
Proof.
  intros Hd. unfold get_processed_time. rewrite Hd. simpl.
  by destruct (bool_decide (as_posix p ∈ l)).
Qed.

Lemma get_processed_time_unseen dotfile p :
  seen_files_ok dotfile →
  as_posix p ∉ seen_paths dotfile →
  get_processed_time dotfile p = Ok PNone.
Proof.
  unfold seen_files_ok, seen_paths, get_processed_time.
  destruct (dotfile !! SEEN_FILES_FIELD) as [[| | |l|]|]; try done.
  intros _ Hp. simpl. by rewrite bool_decide_eq_false_2.
Qed.

(** C9. [update_dotfile_after_saving] overwrites the seen files.  After
    it the seen-files field is exactly the list of the posix renderings
    of the given files, the processed time is the given timestamp, and
    no other field changed; [get_processed_time] returns [None] for every
    path whose rendering is not in that list, whatever was recorded
    before, and the timestamp for every path whose rendering is. *)
Theorem update_dotfile_after_saving_overwrites dotfile now seen_files :
  let dotfile' := update_dotfile_after_saving dotfile now seen_files in
  let rendered := (λ file, as_posix (path file)) <$> seen_files in
  dotfile' !! SEEN_FILES_FIELD = Some (PList rendered)
  ∧ dotfile' !! PROCESSED_TIME_FIELD = Some (PTime now)
  ∧ (∀ field, field ≠ SEEN_FILES_FIELD → field ≠ PROCESSED_TIME_FIELD →
       dotfile' !! field = dotfile !! field)
  ∧ (∀ p, as_posix p ∉ rendered → get_processed_time dotfile' p = Ok PNone)
  ∧ (∀ p, as_posix p ∈ rendered → get_processed_time dotfile' p = Ok (PTime now))
  ∧ (∀ p, wf p → Forall (λ file, wf (path file)) seen_files →
       p ∉ path <$> seen_files → get_processed_time dotfile' p = Ok PNone).
Proof.
  intros dotfile' rendered.
  assert (dotfile' !! SEEN_FILES_FIELD = Some (PList rendered)) as Hseen
    by apply lookup_insert_eq.
  assert (dotfile' !! PROCESSED_TIME_FIELD = Some (PTime now)) as Hnow.
  { unfold dotfile', update_dotfile_after_saving.
    rewrite lookup_insert_ne by done. apply lookup_insert_eq. }
  assert (∀ p, as_posix p ∉ rendered → get_processed_time dotfile' p = Ok PNone)
    as Hgone.
  { intros p Hp. rewrite (get_processed_time_seen _ rendered) by done.
    by rewrite bool_decide_eq_false_2. }
  split_and!; [done | done | | done | |].
  - intros field H1 H2. unfold dotfile', update_dotfile_after_saving.
    by rewrite !lookup_insert_ne.
  - intros p Hp. rewrite (get_processed_time_seen _ rendered) by done.
    rewrite bool_decide_eq_true_2 by done. by rewrite Hnow.
  - intros p Hp Hfiles Hout. apply Hgone.
    intros (file & Heq & Hfile)%list_elem_of_fmap. apply Hout.
    apply list_elem_of_fmap. exists file. split; [|done].
    apply as_posix_inj; [done | | done].
    by apply (proj1 (Forall_forall _ _) Hfiles).
Qed.

(** C1. Staleness.  With the time of the last run recorded, the freshness
    check answers, and answers [true] iff the rendering of the path is
    not in the persisted list of seen paths or the modification time is
    strictly later than the time of the last run.  [get_processed_time]
    decides which: [None] for an unseen path, the recorded time
    otherwise. *)
Theorem staleness_biconditional dotfile p modified_time last_run_time :
  seen_files_ok dotfile →
  dotfile !! PROCESSED_TIME_FIELD = Some (PTime last_run_time) →
  get_processed_time dotfile p
  = Ok (if bool_decide (as_posix p ∈ seen_paths dotfile)
        then PTime last_run_time else PNone)
  ∧ ∃ stale, is_stale dotfile p modified_time = Ok stale
             ∧ (stale = true ↔
                as_posix p ∉ seen_paths dotfile ∨ modified_time > last_run_time).
Proof.
  intros Hok Hrun.
  assert (get_processed_time dotfile p
          = Ok (if bool_decide (as_posix p ∈ seen_paths dotfile)
                then PTime last_run_time else PNone)) as Hget.
  { destruct (decide (as_posix p ∈ seen_paths dotfile)) as [Hin|Hnin].
    - rewrite bool_decide_eq_true_2 by done.
      unfold seen_paths in Hin.
      destruct (dotfile !! SEEN_FILES_FIELD) as [[| | |l|]|] eqn:Hd;
        try by apply elem_of_nil in Hin.
      rewrite (get_processed_time_seen _ l) by done.
      rewrite bool_decide_eq_true_2 by done. by rewrite Hrun.
    - rewrite bool_decide_eq_false_2 by done.
      by apply get_processed_time_unseen. }
  split; [done|]. unfold is_stale. rewrite Hget.
  destruct (decide (as_posix p ∈ seen_paths dotfile)) as [Hin|Hnin].
  - rewrite bool_decide_eq_true_2 by done. simpl.
    eexists. split; [done|]. unfold is_fresh. simpl.
    rewrite bool_decide_eq_true. split; [by right | by intros [?|?]].
  - rewrite bool_decide_eq_false_2 by done. simpl.
    eexists. split; [done|]. unfold is_fresh. simpl. split; [by left | done].
Qed.

End seen_files_properties.

(** ** Decomposition into animations and windows *)
Section decomposition_properties.
Context {TagColor : Type} `{EqDecision TagColor}.
Variable read : Path → RawAsepriteFile.t TagColor.

Import aseprites.
Implicit Type self : Aseprite TagColor.
Implicit Type c : AsepriteFileContent.t TagColor.

Lemma for_all_Ok {A B} (f : A → result B) (g : A → B) l :
  (∀ x, x ∈ l → f x = Ok (g x)) → for_all f l = Ok (g <$> l).
Proof.
  induction l as [|x l IH]; intros Hf; [done|].
  simpl. rewrite Hf by left. simpl.
  rewrite IH by (intros; apply Hf; by right). done.
Qed.

Lemma content_given self c : _content self = Some c → content read self = Ok c.
Proof. unfold content. by intros ->. Qed.

(** Without a content given to it, a file has none: [from_path] calls the
    constructor without [layer_tag_colors]. *)
Lemma content_from_path_raises self :
  _content self = None → content read self = Raise TypeError.
Proof. unfold content. by intros ->. Qed.

Lemma get_anims_from_path_raises self :
  _content self = None → get_anims read self = Raise TypeError.
Proof. intros Hc. unfold get_anims. by rewrite content_from_path_raises. Qed.

Lemma get_windows_in_frame_range_eq self c a b :
  _content self = Some c →
  get_windows_in_frame_range read self a b
  = Ok (window_of_tag a
          <$> filter (λ t, Tag.color t ∈ window_tag_colors self ∧ in_frame_range a b t)
                     (AsepriteFileContent.tags c)).
Proof.
  intros Hc. unfold get_windows_in_frame_range.
  rewrite (content_given self c Hc). simpl. do 2 f_equal.
Qed.

Lemma elem_of_get_windows self c a b ws w :
  _content self = Some c →
  get_windows_in_frame_range read self a b = Ok ws →
  w ∈ ws ↔
  ∃ t, t ∈ AsepriteFileContent.tags c
       ∧ Tag.color t ∈ window_tag_colors self
       ∧ in_frame_range a b t
       ∧ w = window_of_tag a t.
Proof.
  intros Hc. rewrite (get_windows_in_frame_range_eq self c a b Hc).
  intros [= <-]. rewrite list_elem_of_fmap. split.
  - intros (t & -> & Ht). apply list_elem_of_filter in Ht as [[? ?] ?].
    by exists t.
  - intros (t & Ht & Hcol & Hin & ->). exists t. split; [done|].
    by apply list_elem_of_filter.
Qed.

(** The animation that [make_anim_with_windows_in_range] builds. *)
Lemma make_anim_eq self c name a b fresh c' hashes :
  _content self = Some c →
  make_anim_with_windows_in_range read self name a b fresh c' hashes
  = Ok (Anim.mk name a b
          (window_of_tag a
             <$> filter (λ t, Tag.color t ∈ window_tag_colors self ∧ in_frame_range a b t)
                        (AsepriteFileContent.tags c))
          fresh c' hashes).
Proof.
  intros Hc. unfold make_anim_with_windows_in_range.
  by rewrite (get_windows_in_frame_range_eq self c a b Hc).
Qed.

Lemma get_anims_eq self c :
  _content self = Some c →
  let anim_of name a b :=
    Anim.mk name a b
      (window_of_tag a
         <$> filter (λ t, Tag.color t ∈ window_tag_colors self ∧ in_frame_range a b t)
                    (AsepriteFileContent.tags c))
      (is_fresh (file self)) c (anim_hashes self) in
  get_anims read self
  = Ok (match filter (λ t, Tag.color t ∈ anim_tag_colors self)
                     (AsepriteFileContent.tags c) with
        | [] => [anim_of (name self) 0 (AsepriteFileContent.num_frames c - 1)]
        | anim_tags => (λ t, anim_of (Tag.name t) (Tag.start t) (Tag.end_ t))
                         <$> anim_tags
        end).
Proof.
  intros Hc anim_of. unfold get_anims.
  rewrite (content_given self c Hc). simpl.
  rewrite (for_all_Ok _ (λ t, anim_of (Tag.name t) (Tag.start t) (Tag.end_ t))).
  - simpl. destruct (filter _ (AsepriteFileContent.tags c)) as [|t l]; simpl.
    + by rewrite (make_anim_eq self c _ _ _ _ _ _ Hc).
    + done.
  - intros t _. simpl. by rewrite (make_anim_eq self c _ _ _ _ _ _ Hc).
Qed.

Lemma anim_windows self c anims anim :
  _content self = Some c →
  get_anims read self = Ok anims →
  anim ∈ anims →
  get_windows_in_frame_range read self (Anim.start anim) (Anim.end_ anim)
  = Ok (Anim.windows anim).
Proof.
  intros Hc. rewrite (get_anims_eq self c Hc). intros [= <-] Hin.
  rewrite (get_windows_in_frame_range_eq self c _ _ Hc).
  destruct (filter _ (AsepriteFileContent.tags c)) as [|t l].
  - by apply list_elem_of_singleton in Hin as ->.
  - by apply elem_of_cons in Hin as [-> | (t' & -> & _)%list_elem_of_fmap].
Qed.

(** C2. Decomposition.  On a file that holds the tags, [get_anims] makes
    one animation for each tag whose colour is an animation colour, in the
    order of the tags, with the name, start and end of the tag; when no tag
    has such a colour it makes exactly one animation, named after the file,
    from frame 0 to frame [num_frames - 1].  The windows of every animation
    are those of its own frame range. *)
Theorem decomposition_contract self c :
  _content self = Some c →
  let anim_tags :=
    filter (λ t, Tag.color t ∈ anim_tag_colors self) (AsepriteFileContent.tags c) in
  ∃ anims,
    get_anims read self = Ok anims
    ∧ (λ a, (Anim.name a, Anim.start a, Anim.end_ a)) <$> anims
      = match anim_tags with
        | [] => [(stem (path (file self)), 0,
                  RawAsepriteFile.get_num_frames (AsepriteFileContent.file_data c) - 1)]
        | _ :: _ => (λ t, (Tag.name t, Tag.start t, Tag.end_ t)) <$> anim_tags
        end
    ∧ Forall (λ a, get_windows_in_frame_range read self (Anim.start a) (Anim.end_ a)
                   = Ok (Anim.windows a)) anims.
Proof.
  intros Hc anim_tags. eexists. split; [by apply get_anims_eq|]. split.
  - fold anim_tags. destruct anim_tags as [|t l]; [done|].
    by rewrite <-list_fmap_compose.
  - apply Forall_forall. intros a Ha.
    by apply (anim_windows self c _ a Hc (get_anims_eq self c Hc)).
Qed.

(** C3, as amended.  A tag of a window colour whose start [s] and end [e]
    both lie in the range [a..b] gives the window with start [s-a+1] and
    end [e-a+1]; both lie between 1 and [b-a+1], and the start is at most
    the end exactly when [s <= e]. *)
Theorem window_remapping_law self c t a b :
  _content self = Some c →
  t ∈ AsepriteFileContent.tags c →
  Tag.color t ∈ window_tag_colors self →
  a ≤ Tag.start t ≤ b →
  a ≤ Tag.end_ t ≤ b →
  ∃ ws w,
    get_windows_in_frame_range read self a b = Ok ws
    ∧ w ∈ ws
    ∧ Window.name w = Tag.name t
    ∧ Window.start w = Tag.start t - a + 1
    ∧ Window.end_ w = Tag.end_ t - a + 1
    ∧ 1 ≤ Window.start w ≤ b - a + 1
    ∧ 1 ≤ Window.end_ w ≤ b - a + 1
    ∧ (Window.start w ≤ Window.end_ w ↔ Tag.start t ≤ Tag.end_ t).
Proof.
  intros Hc Ht Hcol Hs He.
  eexists _, (window_of_tag a t).
  split; [by apply get_windows_in_frame_range_eq|]. split.
  - apply list_elem_of_fmap. exists t. split; [done|].
    by apply list_elem_of_filter.
  - simpl. split_and!; try done; lia.
Qed.

Lemma get_windows_drop_tag self c l1 t l2 a b :
  AsepriteFileContent.tags c = l1 ++ t :: l2 →
  ¬ in_frame_range a b t →
  get_windows_in_frame_range read (with_content self (content_with_tags c (l1 ++ l2))) a b
  = get_windows_in_frame_range read (with_content self c) a b.
Proof.
  intros Htags Hout.
  rewrite (get_windows_in_frame_range_eq _ (content_with_tags c (l1 ++ l2))) by done.
  rewrite (get_windows_in_frame_range_eq _ c) by done.
  rewrite Htags. unfold content_with_tags, AsepriteFileContent.tags. simpl.
  rewrite !filter_app, filter_cons_False; [done|].
  intros [_ ?]. by apply Hout.
Qed.

(** C7. A straddling window tag is left out.  In an animation of
    [get_anims], a tag of a window colour whose start or end lies outside
    the frame range of the animation gives no window: no window of the
    animation has the remapped range of the tag, every window of the
    animation lies whole between 1 and the length of the animation, and
    the windows are those the file would have without the tag. *)
Theorem straddling_window_excluded self c anims anim t :
  _content self = Some c →
  get_anims read self = Ok anims →
  anim ∈ anims →
  t ∈ AsepriteFileContent.tags c →
  Tag.color t ∈ window_tag_colors self →
  ¬ in_frame_range (Anim.start anim) (Anim.end_ anim) t →
  (∀ w, w ∈ Anim.windows anim →
     ¬ (Window.start w = Tag.start t - Anim.start anim + 1
        ∧ Window.end_ w = Tag.end_ t - Anim.start anim + 1))
  ∧ (∀ w, w ∈ Anim.windows anim →
       1 ≤ Window.start w ≤ Anim.end_ anim - Anim.start anim + 1
       ∧ 1 ≤ Window.end_ w ≤ Anim.end_ anim - Anim.start anim + 1)
  ∧ (∀ l1 l2, AsepriteFileContent.tags c = l1 ++ t :: l2 →
       get_windows_in_frame_range read
         (with_content self (content_with_tags c (l1 ++ l2)))
         (Anim.start anim) (Anim.end_ anim)
       = Ok (Anim.windows anim)).
Proof.
  intros Hc Hanims Hanim Ht Hcol Hout.
  pose proof (anim_windows self c anims anim Hc Hanims Hanim) as Hws.
  split_and!.
  - intros w Hw [Hs He].
    apply (elem_of_get_windows self c _ _ _ w Hc Hws) in Hw
      as (t' & _ & _ & [Hs' He'] & ->).
    simpl in Hs, He. apply Hout. unfold in_frame_range. lia.
  - intros w Hw.
    apply (elem_of_get_windows self c _ _ _ w Hc Hws) in Hw
      as (t' & _ & _ & [Hs' He'] & ->).
    simpl. lia.
  - intros l1 l2 Htags.
    rewrite (get_windows_drop_tag self c l1 t l2) by done.
    rewrite <-Hws.
    rewrite (get_windows_in_frame_range_eq (with_content self c) c) by done.
    by rewrite (get_windows_in_frame_range_eq self c) by done.
Qed.

End decomposition_properties.

(** ** The table of animation hashes *)
Section anim_hashes_properties.
Context {TagColor Config : Type}.
Variable _get_modified_time : Path → datetime.
Variables get_anim_tag_color get_window_tag_color : Config → list TagColor.
Variable get_script_processed_time : gmap string pyval → option datetime.

Import aseprites.

Lemma setdefault_anim_hashes_ref (d : gmap string pyval) key d' ref :
  setdefault_anim_hashes d key = Ok (d', ref) → ref = key.
Proof.
  unfold setdefault_anim_hashes.
  destruct (d !! ANIM_HASHES_FIELD) as [[| | | |t]|]; try done.
  - destruct (t !! key); by intros [= _ <-].
  - rewrite lookup_empty. by intros [= _ <-].
Qed.

Lemma read_aseprite_ref (rc : RunContext Config) p pt rc' a :
  read_aseprite _get_modified_time get_anim_tag_color get_window_tag_color
    get_script_processed_time rc p pt = Ok (rc', a) →
  anim_hashes a = Some (stem p) ∧ path (file a) = p.
Proof.
  unfold read_aseprite.
  destruct (setdefault_anim_hashes (dotfile rc) (stem p)) as [[d r]|e] eqn:Hs; [|done].
  apply setdefault_anim_hashes_ref in Hs as ->. simpl. by intros [= _ <-].
Qed.

Lemma read_aseprite_returns (rc : RunContext Config) p pt :
  (dotfile rc !! ANIM_HASHES_FIELD = None
   ∨ ∃ t, dotfile rc !! ANIM_HASHES_FIELD = Some (PDict t)) →
  ∃ rc' a,
    read_aseprite _get_modified_time get_anim_tag_color get_window_tag_color
      get_script_processed_time rc p pt = Ok (rc', a).
Proof.
  unfold read_aseprite, setdefault_anim_hashes. intros [-> | [t ->]].
  - rewrite lookup_empty. simpl. by eexists _, _.
  - destruct (t !! stem p); simpl; by eexists _, _.
Qed.

Lemma record_hash_other (d : gmap string pyval) r1 r2 n fp d' n' :
  r1 ≠ r2 →
  record_hash d r1 n fp = Ok d' →
  lookup_hash d' r2 n' = lookup_hash d r2 n'.
Proof.
  intros Hne. unfold record_hash, lookup_hash, deref.
  destruct (d !! ANIM_HASHES_FIELD) as [[| | | |t]|]; try done. simpl.
  unfold py_getitem_leaf.
  destruct (t !! r1) as [[l|m]|]; try done. simpl.
  intros [= <-]. rewrite lookup_insert_eq.
  by rewrite lookup_insert_ne.
Qed.

Lemma record_hash_same (d : gmap string pyval) r n fp d' :
  record_hash d r n fp = Ok d' →
  lookup_hash d' r n = Ok (Some fp).
Proof.
  unfold record_hash, lookup_hash, deref.
  destruct (d !! ANIM_HASHES_FIELD) as [[| | | |t]|]; try done. simpl.
  unfold py_getitem_leaf.
  destruct (t !! r) as [[l|m]|]; try done. simpl.
  intros [= <-]. rewrite lookup_insert_eq.
  rewrite lookup_insert_eq. simpl. by rewrite lookup_insert_eq.
Qed.

(** C6, as amended.  The table of hashes handed to an Aseprite file is
    the one stored under the stem of its path.  For two files whose stems
    differ, writing a hash through the table of one changes nothing that
    is read through the table of the other, and the written hash is read
    back through the table it was written through.  Two files whose stems
    are equal, whatever their paths, are handed the same table: a hash
    written through the table of one is read through the table of the
    other. *)
Theorem hash_cache_scoped_by_stem (rc : RunContext Config)
    p1 pt1 rc1 a1 p2 pt2 rc2 a2 :
  read_aseprite _get_modified_time get_anim_tag_color get_window_tag_color
    get_script_processed_time rc p1 pt1 = Ok (rc1, a1) →
  read_aseprite _get_modified_time get_anim_tag_color get_window_tag_color
    get_script_processed_time rc1 p2 pt2 = Ok (rc2, a2) →
  anim_hashes a1 = Some (stem p1)
  ∧ anim_hashes a2 = Some (stem p2)
  ∧ (stem p1 ≠ stem p2 →
     (∀ anim_name fingerprint d3,
        record_hash (dotfile rc2) (stem p1) anim_name fingerprint = Ok d3 →
        lookup_hash d3 (stem p1) anim_name = Ok (Some fingerprint)
        ∧ ∀ other, lookup_hash d3 (stem p2) other
                   = lookup_hash (dotfile rc2) (stem p2) other)
     ∧ (∀ anim_name fingerprint d3,
          record_hash (dotfile rc2) (stem p2) anim_name fingerprint = Ok d3 →
          lookup_hash d3 (stem p2) anim_name = Ok (Some fingerprint)
          ∧ ∀ other, lookup_hash d3 (stem p1) other
                     = lookup_hash (dotfile rc2) (stem p1) other))
  ∧ (stem p1 = stem p2 →
     anim_hashes a1 = anim_hashes a2
     ∧ (∀ anim_name fingerprint d3,
          record_hash (dotfile rc2) (stem p1) anim_name fingerprint = Ok d3 →
          lookup_hash d3 (stem p2) anim_name = Ok (Some fingerprint))
     ∧ (∀ anim_name fingerprint d3,
          record_hash (dotfile rc2) (stem p2) anim_name fingerprint = Ok d3 →
          lookup_hash d3 (stem p1) anim_name = Ok (Some fingerprint))).
Proof.
  intros [H1 _]%read_aseprite_ref [H2 _]%read_aseprite_ref.
  split_and!; [done | done | |].
  - intros Hne. split.
    + intros n fp d3 Hrec. split; [by eapply record_hash_same|].
      intros other. by eapply record_hash_other.
    + intros n fp d3 Hrec. split; [by eapply record_hash_same|].
      intros other. by eapply record_hash_other.
  - intros Heq. split_and!.
    + by rewrite H1, H2, Heq.
    + intros n fp d3 Hrec. rewrite <-Heq. by eapply record_hash_same.
    + intros n fp d3 Hrec. rewrite Heq. by eapply record_hash_same.
Qed.

End anim_hashes_properties.

(** C6, as stated, fails: two files with different paths and the same
    stem are handed the same table, so a hash written for one is read
    for the other. *)
Lemma hash_cache_shared_by_equal_stems :
  ¬ (∀ (rc : RunContext (list string * list string))
       p1 pt1 rc1 a1 p2 pt2 rc2 a2 r1 r2,
       aseprites.read_aseprite sample.clock fst snd sample.last_run rc p1 pt1
       = Ok (rc1, a1) →
       aseprites.read_aseprite sample.clock fst snd sample.last_run rc1 p2 pt2
       = Ok (rc2, a2) →
       p1 ≠ p2 →
       aseprites.anim_hashes a1 = Some r1 →
       aseprites.anim_hashes a2 = Some r2 →
       ∀ anim_name fingerprint d3,
         aseprites.record_hash (dotfile rc2) r1 anim_name fingerprint = Ok d3 →
         ∀ other, aseprites.lookup_hash d3 r2 other
                  = aseprites.lookup_hash (dotfile rc2) r2 other).
Proof.
  intros Hclaim.
  pose (p1 := ["proj"; "anims"; "a"; "idle.ase"] : Path).
  pose (p2 := ["proj"; "anims"; "b"; "idle.ase"] : Path).
  pose (cfg := ([sample.RED], [sample.BLUE])).
  pose (d2 := ({[aseprites.ANIM_HASHES_FIELD := PDict {["idle" := LDict ∅]}]})
              : gmap string pyval).
  pose (d3 := ({[aseprites.ANIM_HASHES_FIELD :=
                   PDict {["idle" := LDict {["attack" := "f00d"]}]}]})
              : gmap string pyval).
  specialize (Hclaim (mkRunContext ["proj"] ∅ cfg)
                p1 None (mkRunContext ["proj"] d2 cfg)
                (aseprites.mkAseprite (mkFile p1 150 (Some 100))
                   [sample.RED] [sample.BLUE] (Some "idle") None None)
                p2 None (mkRunContext ["proj"] d2 cfg)
                (aseprites.mkAseprite (mkFile p2 150 (Some 100))
                   [sample.RED] [sample.BLUE] (Some "idle") None None)
                "idle" "idle").
  assert (aseprites.lookup_hash d3 "idle" "attack"
          = aseprites.lookup_hash d2 "idle" "attack") as Heq.
  { apply (Hclaim eq_refl eq_refl ltac:(done) eq_refl eq_refl "attack" "f00d").
    reflexivity. }
  vm_compute in Heq. discriminate Heq.
Qed.

(** ** Export *)
Section export_properties.
Context {TagColor Frame : Type}.
Variables ANIMS_FOLDER SPRITES_FOLDER : Path.
Variable get_tags : Path → list (aseprite_handling.AsepriteTag TagColor).
Variable fnmatch : string → string → bool.
Variable program_exists : string → bool.

Import aseprite_handling.
Implicit Type self : Aseprite TagColor Frame.

Lemma string_app_length s1 s2 :
  String.length (s1 +:+ s2) = (String.length s1 + String.length s2)%nat.
Proof. induction s1 as [|a s1 IH]; [done|]. simpl. by rewrite <-IH. Qed.

Lemma dest_name_not_root base_name n :
  is_root (base_name +:+ "_strip" +:+ n +:+ ".png") = false.
Proof.
  apply bool_decide_eq_false. intros [Heq | Heq];
    apply (f_equal String.length) in Heq;
    rewrite !string_app_length in Heq; simpl in Heq; lia.
Qed.

Lemma truediv_name dir x : is_root x = false → dir /ₚ [x] = dir ++ [x].
Proof.
  intros Hx. unfold truediv, anchor_len. rewrite Hx. by rewrite decide_False.
Qed.

Lemma anchor_len_le p : (anchor_len p ≤ 1)%nat.
Proof. unfold anchor_len. destruct p as [|r p]; [lia|]. destruct (is_root r); lia. Qed.

Lemma parent_snoc dir x : is_root x = false → parent (dir ++ [x]) = dir.
Proof.
  intros Hx. unfold parent. rewrite decide_False; [apply removelast_last|].
  destruct dir as [|r dir].
  - simpl. by rewrite Hx.
  - pose proof (anchor_len_le ((r :: dir) ++ [x])).
    rewrite length_app. simpl in *. lia.
Qed.

Lemma for_each_os_remove l : ∀ w,
  NoDup l → (∀ p, p ∈ l → p ∈ files w) →
  for_each os_remove l w
  = (mkWorld (files w ∖ list_to_set l) (log w ++ (Remove <$> l)), Ok ()).
Proof.
  induction l as [|x l IH]; intros w Hnd Hin.
  - simpl. unfold mret, io_ret. destruct w as [fs lg]. simpl.
    rewrite app_nil_r. by rewrite difference_empty_L.
  - apply NoDup_cons in Hnd as [Hx Hnd]. simpl.
    unfold mbind, io_bind, os_remove at 1.
    rewrite decide_True by (apply Hin; left).
    rewrite IH; [|done|]; simpl.
    + rewrite <-app_assoc. simpl.
      by rewrite difference_difference_l_L.
    + intros p Hp. apply elem_of_difference. split; [apply Hin; by right|].
      intros ->%elem_of_singleton. done.
Qed.

Lemma _delete_old_save_eq self root_dir base_name w :
  get_sprite_base_name ANIMS_FOLDER self root_dir = Ok base_name →
  let old_paths :=
    elements (filter (matching fnmatch (root_dir /ₚ SPRITES_FOLDER)
                               (base_name +:+ "_strip*.png")) (files w)) in
  _delete_old_save ANIMS_FOLDER SPRITES_FOLDER fnmatch self root_dir w
  = (mkWorld (files w ∖ list_to_set old_paths) (log w ++ (Remove <$> old_paths)),
     Ok ()).
Proof.
  intros Hbase old_paths. unfold _delete_old_save.
  unfold mbind at 1, io_bind, lift. rewrite Hbase.
  unfold mbind at 1, io_bind, glob. fold old_paths.
  apply for_each_os_remove.
  - apply NoDup_elements.
  - intros p Hp. apply elem_of_elements, elem_of_filter in Hp. by destruct Hp.
Qed.

(** What [save] does, case by case. *)
Lemma save_eq self root_dir aseprite_path has_small_sprites w :
  save ANIMS_FOLDER SPRITES_FOLDER get_tags fnmatch program_exists
       self root_dir aseprite_path has_small_sprites w
  = match get_sprite_base_name ANIMS_FOLDER self root_dir with
    | Raise e => (w, Raise e)
    | Ok base_name =>
        let sprites := root_dir /ₚ SPRITES_FOLDER in
        let old_paths :=
          elements (filter (matching fnmatch sprites (base_name +:+ "_strip*.png"))
                           (files w)) in
        let w1 := mkWorld (files w ∖ list_to_set old_paths)
                          (log w ++ (Remove <$> old_paths)) in
        match get_frames (content get_tags self) with
        | Raise e => (w1, Raise e)
        | Ok frames =>
            let dest :=
              sprites
              ++ [base_name +:+ "_strip" +:+ pretty (length frames) +:+ ".png"] in
            let export_command :=
              join " "
                [ quoted (as_posix aseprite_path);
                  "-b";
                  quoted (as_posix (path (file self)));
                  "--scale " +:+ (if has_small_sprites then "2" else "1");
                  "--sheet " +:+ quoted (as_posix dest) ] in
            if program_exists export_command
            then (mkWorld (files w1)
                          (log w1 ++ [Mkdir sprites; Run export_command]),
                  Ok ())
            else (mkWorld (files w1) (log w1 ++ [Mkdir sprites]),
                  Raise FileNotFoundError)
        end
    end.
Proof.
  destruct (get_sprite_base_name ANIMS_FOLDER self root_dir) as [base|e] eqn:Hbase.
  - destruct (get_frames (content get_tags self)) as [frames|e] eqn:Hframes.
    + unfold save. unfold mbind at 1, io_bind.
      rewrite (_delete_old_save_eq self root_dir base w Hbase).
      unfold mbind at 1, io_bind, lift. rewrite Hframes.
      unfold mbind at 1, io_bind. rewrite Hbase.
      rewrite truediv_name by apply dest_name_not_root.
      rewrite parent_snoc by apply dest_name_not_root.
      unfold mbind at 1, io_bind, mkdir, subprocess_run, emit, lift.
      cbn [files log].
      replace (pretty ((if has_small_sprites then 1 else 0) + 1)%nat)
        with (if has_small_sprites then "2" else "1")
        by by destruct has_small_sprites.
      destruct (program_exists _); [|done].
      cbn [files log]. by rewrite <-app_assoc.
    + unfold save. unfold mbind at 1, io_bind.
      rewrite (_delete_old_save_eq self root_dir base w Hbase).
      unfold mbind at 1, io_bind, lift. by rewrite Hframes.
  - unfold save, _delete_old_save. unfold mbind at 1, io_bind.
    unfold mbind at 1, io_bind, lift. by rewrite Hbase.
Qed.

(** C8, where the code misses it.  On the content that the module itself
    builds, that is when no content was handed to the constructor or when
    the content is an [AsepriteData], [save] never gets to the export:
    it removes the files of the sprites folder that match
    [<base_name>_strip*.png] and then raises, [AttributeError] when the
    base name is defined, since an [AsepriteData] has no [frames].  It logs
    removals only: no folder is made and no command is run, so no
    [<base_name>_strip<frame_count>.png] is written, with or without a
    program to run. *)
Theorem save_never_reaches_the_export
    self root_dir aseprite_path has_small_sprites w :
  (_content self = None ∨ ∃ d, _content self = Some (Data d)) →
  ∃ w' e,
    save ANIMS_FOLDER SPRITES_FOLDER get_tags fnmatch program_exists
         self root_dir aseprite_path has_small_sprites w
    = (w', Raise e)
    ∧ files w' ⊆ files w
    ∧ (∃ removed, log w' = log w ++ (Remove <$> removed))
    ∧ ∀ base_name,
        get_sprite_base_name ANIMS_FOLDER self root_dir = Ok base_name →
        e = AttributeError
        ∧ ∀ p, p ∈ files w' ↔
               p ∈ files w
               ∧ ¬ matching fnmatch (root_dir /ₚ SPRITES_FOLDER)
                            (base_name +:+ "_strip*.png") p.
Proof.
  intros Hc. rewrite save_eq.
  assert (get_frames (content get_tags self) = Raise AttributeError) as ->.
  { unfold content. by destruct Hc as [-> | [d ->]]. }
  destruct (get_sprite_base_name ANIMS_FOLDER self root_dir) as [base|e].
  - eexists _, _. split_and!; [reflexivity | | |].
    + apply subseteq_difference_l. done.
    + by eexists.
    + intros base_name [= <-]. split; [done|]. intros p. cbn [files].
      rewrite elem_of_difference, elem_of_list_to_set, elem_of_elements,
        elem_of_filter.
      tauto.
  - exists w, e. split_and!; [done | done | | done].
    exists []. by rewrite app_nil_r.
Qed.

End export_properties.

(** ** The properties at the sample data *)
Section at_sample_data.
Import sample.

Example stem_drops_last_suffix :
  stem ["anims"; "a"; "idle.ase"] = "idle" ∧ stem ["a.tar.gz"] = "a.tar"
  ∧ stem [".assistant"] = ".assistant" ∧ stem ["/"] = "".
Proof. by vm_compute. Qed.

Example of_str_normalises :
  of_str "scripts//./attack.gml" = ["scripts"; "attack.gml"]
  ∧ of_str "/opt/inject/" = ["/"; "opt"; "inject"]
  ∧ of_str "//host/share" = ["//"; "host"; "share"]
  ∧ of_str "." = [].
Proof. by vm_compute. Qed.

Example parents_stop_at_the_root :
  parents ["/"; "a"; "b"] = [["/"; "a"]; ["/"]]
  ∧ parents ["a"; "b"] = [["a"]; []].
Proof. by vm_compute. Qed.

(** A key that [as_posix] would not write names the same path as the one
    it would; removing the client leaves that entry behind. *)
Example other_spelling_of_a_key_stays :
  let d0 : gmap string pyval :=
    <[INJECT_CLIENTS_FIELD :=
        PDict (<["./scripts/attacks/attack.gml" := LList [as_posix combo_lib]]> ∅)]> ∅ in
  (d1 ← update_dotfile_injection_clients d0 attack [combo_lib];
   d2 ← update_dotfile_injection_clients d1 attack [];
   get_clients_for_injection d2 combo_lib)
  = Ok [attack].
Proof. by vm_compute. Qed.

Example end_to_end_scenario :
  aseprites.get_anims no_file run_file
  = Ok [Anim.mk "run" 0 3 [Window.mk "hitbox" 2 3] true run_content None].
Proof. by vm_compute. Qed.

Example no_anim_tags_fallback :
  aseprites.get_anims no_file bare_file
  = Ok [Anim.mk "spark" 0 4 [] true (content_of 5 []) None].
Proof. by vm_compute. Qed.

Example reversed_tag_window :
  aseprites.get_windows_in_frame_range no_file odd_file 0 5
  = Ok [Window.mk "back" 4 2; Window.mk "hit" 2 3].
Proof. by vm_compute. Qed.

Example base_name_joins_subfolders :
  aseprite_handling.get_sprite_base_name (TagColor := string) (Frame := unit) ["anims"]
    (aseprite_handling.mkAseprite
       (mkFile ["/"; "proj"; "anims"; "a"; "b"; "idle.ase"] 0 None) None)
    ["/"; "proj"]
  = Ok "a_b_idle".
Proof. by vm_compute. Qed.

Example save_idle :
  let r := aseprite_handling.save ["anims"] ["sprites"] (λ _, []) fnmatch_star
             (λ _, true) idle ["proj"] ["bin"; "aseprite"] true disk in
  files r.1 = {[ ["proj"; "sprites"; "idle_hurt_strip2.png"];
                 ["proj"; "sprites"; "walk_strip4.png"] ]}
  ∧ r.2 = Ok ().
Proof. by vm_compute. Qed.

Example save_idle_without_program :
  (aseprite_handling.save ["anims"] ["sprites"] (λ _, []) fnmatch_star
     (λ _, false) idle ["proj"] ["bin"; "aseprite"] true disk).2
  = Raise FileNotFoundError.
Proof. rewrite save_eq. reflexivity. Qed.

Lemma staleness_biconditional_witness :
  seen_files_ok stored
  ∧ stored !! PROCESSED_TIME_FIELD = Some (PTime 100)
  ∧ get_processed_time stored attack = Ok (PTime 100)
  ∧ ∃ stale, is_stale stored attack 150 = Ok stale
             ∧ (stale = true ↔
                as_posix attack ∉ seen_paths stored ∨ 150 > 100).
Proof.
  split; [by vm_compute|]. split; [reflexivity|].
  apply (staleness_biconditional stored attack 150 100);
    [by vm_compute | reflexivity].
Defined.

Lemma reverse_query_follows_forward_map_witness :
  clients_table_ok stored
  ∧ canonical_keys (clients_table stored)
  ∧ wf attack
  ∧ ∃ d1 d2,
      update_dotfile_injection_clients stored attack [combo_lib] = Ok d1
      ∧ (∀ dep, dep ∈ [combo_lib] →
           ∃ l, get_clients_for_injection d1 dep = Ok l ∧ attack ∈ l)
      ∧ update_dotfile_injection_clients d1 attack [] = Ok d2
      ∧ (∀ dep, ∃ l, get_clients_for_injection d2 dep = Ok l ∧ attack ∉ l).
Proof.
  assert (clients_table_ok stored) as H1 by by vm_compute.
  assert (canonical_keys (clients_table stored)) as H2
    by (apply (bool_decide_unpack _); by vm_compute).
  assert (wf attack) as H3 by (apply (bool_decide_unpack _); by vm_compute).
  split_and!; [done..|].
  destruct (reverse_query_follows_forward_map stored attack [combo_lib] H1 H2 H3)
    as (d1 & d2 & Hd1 & Hin & Hd2 & Hout & _).
  by exists d1, d2.
Defined.

Lemma dependency_table_entry_invariant_witness :
  clients_table_ok stored
  ∧ ∃ dotfile',
      update_dotfile_injection_clients stored attack [combo_lib] = Ok dotfile'
      ∧ clients_table dotfile' !! as_posix attack
        = Some (LList [as_posix combo_lib])
      ∧ (no_empty_entry (clients_table stored) →
         no_empty_entry (clients_table dotfile')).
Proof.
  assert (clients_table_ok stored) as H1 by by vm_compute.
  split; [done|].
  destruct (dependency_table_entry_invariant stored attack [combo_lib] H1)
    as (d' & Hd' & _ & _ & Hentry & _ & _ & Hinv & _).
  exists d'. split_and!; [done | by apply Hentry | done].
Defined.

Lemma queries_total_on_missing_state_witness :
  (∅ : gmap string pyval) !! INJECT_CLIENTS_FIELD = None
  ∧ get_clients_for_injection ∅ combo_lib = Ok []
  ∧ null_seen !! SEEN_FILES_FIELD = Some PNone
  ∧ get_processed_time null_seen attack = Ok PNone.
Proof.
  split_and!; [reflexivity | | reflexivity |].
  - apply (queries_total_on_missing_state ∅ combo_lib). reflexivity.
  - apply (queries_total_on_missing_state null_seen attack).
    right. reflexivity.
Defined.

Lemma update_dotfile_after_saving_overwrites_witness :
  let seen_files := [mkFile ["anims"; "idle.ase"] 150 None] in
  let dotfile' := update_dotfile_after_saving stored 200 seen_files in
  as_posix attack ∈ seen_paths stored
  ∧ wf attack
  ∧ Forall (λ file, wf (path file)) seen_files
  ∧ (attack ∉ path <$> seen_files)
  ∧ get_processed_time stored attack = Ok (PTime 100)
  ∧ get_processed_time dotfile' attack = Ok PNone.
Proof.
  intros seen_files dotfile'.
  assert (wf attack) as H1 by (apply (bool_decide_unpack _); by vm_compute).
  assert (Forall (λ file, wf (path file)) seen_files) as H2
    by (apply (bool_decide_unpack _); by vm_compute).
  assert (attack ∉ path <$> seen_files) as H3
    by (apply (bool_decide_unpack _); by vm_compute).
  split_and!;
    [apply (bool_decide_unpack _); by vm_compute | done | done | done | reflexivity |].
  destruct (update_dotfile_after_saving_overwrites stored 200 seen_files)
    as (_ & _ & _ & _ & _ & Hgone).
  by apply Hgone.
Defined.

Lemma decomposition_contract_witness :
  aseprites._content run_file = Some run_content
  ∧ ∃ anims,
      aseprites.get_anims no_file run_file = Ok anims
      ∧ (λ a, (Anim.name a, Anim.start a, Anim.end_ a)) <$> anims = [("run", 0, 3)].
Proof.
  split; [reflexivity|].
  destruct (decomposition_contract no_file run_file run_content eq_refl)
    as (anims & Hanims & Hsummary & _).
  exists anims. split; [exact Hanims | exact Hsummary].
Defined.

Lemma window_remapping_law_witness :
  aseprites._content run_file = Some run_content
  ∧ Tag.mk "hitbox" 1 2 BLUE ∈ AsepriteFileContent.tags run_content
  ∧ BLUE ∈ aseprites.window_tag_colors run_file
  ∧ (0 ≤ 1 ≤ 3) ∧ (0 ≤ 2 ≤ 3)
  ∧ ∃ ws w, aseprites.get_windows_in_frame_range no_file run_file 0 3 = Ok ws
            ∧ w ∈ ws
            ∧ Window.name w = "hitbox"
            ∧ Window.start w = 2
            ∧ Window.end_ w = 3.
Proof.
  assert (Tag.mk "hitbox" 1 2 BLUE ∈ AsepriteFileContent.tags run_content) as H1
    by (apply (bool_decide_unpack _); by vm_compute).
  assert (BLUE ∈ aseprites.window_tag_colors run_file) as H2
    by (apply (bool_decide_unpack _); by vm_compute).
  assert (0 ≤ 1 ≤ 3) as H3 by lia.
  assert (0 ≤ 2 ≤ 3) as H4 by lia.
  split_and!; [reflexivity | done..|].
  destruct (window_remapping_law no_file run_file run_content
              (Tag.mk "hitbox" 1 2 BLUE) 0 3 eq_refl H1 H2 H3 H4)
    as (ws & w & Hws & Hw & Hn & Hs & He & _).
  by exists ws, w.
Defined.

(** C3, as stated, fails: a window tag that runs backwards lies in the
    range with both ends and gives a window whose start is after its
    end. *)
Lemma window_remapping_fails_on_reversed_tag :
  ¬ (∀ (read : Path → RawAsepriteFile.t string)
       (self : aseprites.Aseprite string) c t a b,
       aseprites._content self = Some c →
       t ∈ AsepriteFileContent.tags c →
       Tag.color t ∈ aseprites.window_tag_colors self →
       a ≤ Tag.start t ≤ b →
       a ≤ Tag.end_ t ≤ b →
       ∃ ws w, aseprites.get_windows_in_frame_range read self a b = Ok ws
               ∧ w ∈ ws
               ∧ Window.name w = Tag.name t
               ∧ Window.start w = Tag.start t - a + 1
               ∧ Window.end_ w = Tag.end_ t - a + 1
               ∧ 1 ≤ Window.start w ≤ Window.end_ w ≤ b - a + 1).
Proof.
  intros Hclaim.
  destruct (Hclaim no_file odd_file odd_content (Tag.mk "back" 3 1 BLUE) 0 5)
    as (ws & w & _ & _ & _ & Hs & He & _ & Hle & _).
  - reflexivity.
  - apply (bool_decide_unpack _). by vm_compute.
  - apply (bool_decide_unpack _). by vm_compute.
  - simpl. lia.
  - simpl. lia.
  - simpl in Hs, He. lia.
Qed.

Lemma straddling_window_excluded_witness :
  let anim := Anim.mk "run" 0 5 [Window.mk "back" 4 2; Window.mk "hit" 2 3] true
                odd_content None in
  let late := Tag.mk "late" 4 7 BLUE in
  aseprites._content odd_file = Some odd_content
  ∧ aseprites.get_anims no_file odd_file = Ok [anim]
  ∧ anim ∈ [anim]
  ∧ late ∈ AsepriteFileContent.tags odd_content
  ∧ BLUE ∈ aseprites.window_tag_colors odd_file
  ∧ ¬ in_frame_range 0 5 late
  ∧ ∀ w, w ∈ Anim.windows anim → ¬ (Window.start w = 5 ∧ Window.end_ w = 8).
Proof.
  intros anim late.
  assert (aseprites.get_anims no_file odd_file = Ok [anim]) as H0 by by vm_compute.
  assert (anim ∈ [anim]) as H1 by apply list_elem_of_here.
  assert (late ∈ AsepriteFileContent.tags odd_content) as H2
    by (apply (bool_decide_unpack _); by vm_compute).
  assert (BLUE ∈ aseprites.window_tag_colors odd_file) as H3
    by (apply (bool_decide_unpack _); by vm_compute).
  assert (¬ in_frame_range (Anim.start anim) (Anim.end_ anim) late) as H4
    by (unfold in_frame_range; simpl; lia).
  split_and!; [reflexivity | done..|].
  apply (straddling_window_excluded no_file odd_file odd_content [anim] anim late
           eq_refl H0 H1 H2 H3 H4).
Defined.

Lemma hash_cache_scoped_by_stem_witness :
  let p1 : Path := ["proj"; "anims"; "idle.ase"] in
  let p2 : Path := ["proj"; "anims"; "walk.ase"] in
  let p3 : Path := ["proj"; "anims"; "hurt"; "idle.ase"] in
  let read_aseprite := aseprites.read_aseprite (TagColor := string) clock fst snd last_run in
  (∃ rc1 a1 rc2 a2 d3,
     read_aseprite context p1 None = Ok (rc1, a1)
     ∧ read_aseprite rc1 p2 None = Ok (rc2, a2)
     ∧ stem p1 ≠ stem p2
     ∧ aseprites.record_hash (dotfile rc2) (stem p1) "attack" "f00d" = Ok d3
     ∧ aseprites.lookup_hash d3 (stem p1) "attack" = Ok (Some "f00d")
     ∧ ∀ other, aseprites.lookup_hash d3 (stem p2) other
                = aseprites.lookup_hash (dotfile rc2) (stem p2) other)
  ∧ (∃ rc1 a1 rc2 a3 d3,
       read_aseprite context p1 None = Ok (rc1, a1)
       ∧ read_aseprite rc1 p3 None = Ok (rc2, a3)
       ∧ p1 ≠ p3
       ∧ stem p1 = stem p3
       ∧ aseprites.anim_hashes a1 = aseprites.anim_hashes a3
       ∧ aseprites.record_hash (dotfile rc2) (stem p1) "attack" "f00d" = Ok d3
       ∧ aseprites.lookup_hash d3 (stem p3) "attack" = Ok (Some "f00d")).
Proof.
  intros p1 p2 p3 read_aseprite.
  destruct (read_aseprite context p1 None) as [[rc1 a1]|e] eqn:Hr1;
    [|by vm_compute in Hr1].
  split.
  - destruct (read_aseprite rc1 p2 None) as [[rc2 a2]|e] eqn:Hr2;
      [|by (injection Hr1 as <- <-; vm_compute in Hr2)].
    destruct (aseprites.record_hash (dotfile rc2) (stem p1) "attack" "f00d")
      as [d3|e] eqn:Hr3;
      [|by (injection Hr1 as <- <-; injection Hr2 as <- <-; vm_compute in Hr3)].
    assert (stem p1 ≠ stem p2) as Hne by by vm_compute.
    destruct (hash_cache_scoped_by_stem clock fst snd last_run context
                p1 None rc1 a1 p2 None rc2 a2 Hr1 Hr2)
      as (_ & _ & Hdiff & _).
    destruct (Hdiff Hne) as [Hrec _].
    destruct (Hrec "attack" "f00d" d3 Hr3) as [Hsame Hother].
    by exists rc1, a1, rc2, a2, d3.
  - destruct (read_aseprite rc1 p3 None) as [[rc2 a3]|e] eqn:Hr2;
      [|by (injection Hr1 as <- <-; vm_compute in Hr2)].
    destruct (aseprites.record_hash (dotfile rc2) (stem p1) "attack" "f00d")
      as [d3|e] eqn:Hr3;
      [|by (injection Hr1 as <- <-; injection Hr2 as <- <-; vm_compute in Hr3)].
    assert (p1 ≠ p3) as Hne by done.
    assert (stem p1 = stem p3) as Heq by (vm_compute; reflexivity).
    destruct (hash_cache_scoped_by_stem clock fst snd last_run context
                p1 None rc1 a1 p3 None rc2 a3 Hr1 Hr2)
      as (_ & _ & _ & Hsame).
    destruct (Hsame Heq) as (Href & Hrec & _).
    exists rc1, a1, rc2, a3, d3.
    split_and!; [reflexivity | exact Hr2 | exact Hne | exact Heq | exact Href
                | exact Hr3 | exact (Hrec "attack" "f00d" d3 Hr3)].
Defined.

End at_sample_data.

(** ** More on the dependency table and the seen files *)
Section dotfile_compositions.

Implicit Type dotfile : gmap string pyval.

Lemma updated_table_twice (t : gmap string pyleaf) c deps1 deps2 :
  updated_table (updated_table t c deps1) c deps2 = updated_table t c deps2.
Proof.
  unfold updated_table. destruct deps1, deps2.
  - by rewrite delete_delete_eq.
  - by rewrite insert_delete_eq.
  - by rewrite delete_insert_eq.
  - by rewrite insert_insert_eq.
Qed.

Lemma updated_table_commute (t : gmap string pyleaf) c1 deps1 c2 deps2 :
  as_posix c1 ≠ as_posix c2 →
  updated_table (updated_table t c1 deps1) c2 deps2
  = updated_table (updated_table t c2 deps2) c1 deps1.
Proof.
  intros Hne. unfold updated_table. destruct deps1, deps2.
  - apply delete_delete.
  - by rewrite delete_insert_ne.
  - by rewrite delete_insert_ne.
  - by apply insert_insert_ne.
Qed.

(** X1. Recording a client twice: the second call decides.  Whatever the
    first call recorded for the client, dependencies or none, the dotfile
    after both calls is the one the second call alone gives. *)
Theorem second_update_of_a_client_wins dotfile client deps1 deps2 :
  clients_table_ok dotfile →
  (d1 ← update_dotfile_injection_clients dotfile client deps1;
   update_dotfile_injection_clients d1 client deps2)
  = update_dotfile_injection_clients dotfile client deps2.
Proof.
  intros Hok. rewrite (update_dotfile_injection_clients_eq dotfile) by done. simpl.
  rewrite update_dotfile_injection_clients_eq by apply clients_table_ok_insert.
  rewrite (update_dotfile_injection_clients_eq dotfile) by done.
  rewrite clients_table_insert, updated_table_twice. by rewrite insert_insert_eq.
Qed.

(** X2. Calls for two clients with different renderings commute: both
    orders give the same dotfile. *)
Theorem updates_of_two_clients_commute dotfile c1 deps1 c2 deps2 :
  clients_table_ok dotfile →
  as_posix c1 ≠ as_posix c2 →
  (d1 ← update_dotfile_injection_clients dotfile c1 deps1;
   update_dotfile_injection_clients d1 c2 deps2)
  = (d2 ← update_dotfile_injection_clients dotfile c2 deps2;
     update_dotfile_injection_clients d2 c1 deps1).
Proof.
  intros Hok Hne.
  rewrite !(update_dotfile_injection_clients_eq dotfile) by done. simpl.
  rewrite !update_dotfile_injection_clients_eq by apply clients_table_ok_insert.
  rewrite !clients_table_insert, !insert_insert_eq.
  by rewrite (updated_table_commute _ c1 deps1 c2 deps2).
Qed.

(** X3. The reverse query after one call.  After a client is recorded with
    some dependencies, the query for a path lists the client iff the path
    is among them, and lists any other path exactly when it did before. *)
Theorem reverse_query_after_update dotfile client deps q :
  clients_table_ok dotfile →
  canonical_keys (clients_table dotfile) →
  wf client →
  ∃ l dotfile' l',
    get_clients_for_injection dotfile q = Ok l
    ∧ update_dotfile_injection_clients dotfile client deps = Ok dotfile'
    ∧ get_clients_for_injection dotfile' q = Ok l'
    ∧ (client ∈ l' ↔ as_posix q ∈ as_posix <$> deps)
    ∧ (∀ p, p ≠ client → p ∈ l' ↔ p ∈ l).
Proof.
  intros Hok Hcan Hwf.
  set (t := clients_table dotfile) in *.
  set (d' := <[INJECT_CLIENTS_FIELD := PDict (updated_table t client deps)]> dotfile).
  assert (clients_table_ok d') as Hok' by apply clients_table_ok_insert.
  assert (clients_table d' = updated_table t client deps) as Ht'
    by apply clients_table_insert.
  assert (∀ key deps', t !! key = Some deps' → of_str key = client →
                       key = as_posix client) as Hkey.
  { intros key deps' Hk <-. symmetry. by apply (Hcan key deps'). }
  eexists _, d', _. split; [by apply get_clients_for_injection_eq|].
  split; [by apply update_dotfile_injection_clients_eq|].
  split; [by apply get_clients_for_injection_eq|].
  pose proof (λ p, elem_of_clients dotfile q p _ Hok
                     (get_clients_for_injection_eq dotfile q Hok)) as Hl.
  pose proof (λ p, elem_of_clients d' q p _ Hok'
                     (get_clients_for_injection_eq d' q Hok')) as Hl'.
  split.
  - rewrite Hl', Ht'. unfold updated_table. split.
    + intros (key & leaf & Hk & Hin & Hp). destruct deps as [|dep deps].
      * apply lookup_delete_Some in Hk as [Hne Hk].
        destruct Hne. symmetry. by eapply Hkey.
      * destruct (decide (key = as_posix client)) as [->|Hne].
        -- rewrite lookup_insert_eq in Hk. injection Hk as <-.
           simpl in Hin. by apply bool_decide_eq_true in Hin.
        -- rewrite lookup_insert_ne in Hk by done.
           destruct Hne. by eapply Hkey.
    + intros Hin. destruct deps as [|dep deps]; [by apply elem_of_nil in Hin|].
      exists (as_posix client), (LList (as_posix <$> dep :: deps)).
      rewrite lookup_insert_eq. split_and!; [done | | by rewrite of_str_as_posix].
      simpl. by apply bool_decide_eq_true.
  - intros p Hp. rewrite Hl, Hl', Ht'.
    assert (∀ key, p = of_str key →
                   updated_table t client deps !! key = t !! key) as Hsame.
    { intros key ->. unfold updated_table. destruct deps.
      - apply lookup_delete_ne. intros <-. by rewrite of_str_as_posix in Hp.
      - apply lookup_insert_ne. intros <-. by rewrite of_str_as_posix in Hp. }
    split; intros (key & leaf & Hk & Hin & ->); exists key, leaf.
    + by rewrite <-Hsame.
    + by rewrite Hsame.
Qed.

Lemma update_dotfile_injection_clients_other_fields dotfile c deps dotfile' field :
  update_dotfile_injection_clients dotfile c deps = Ok dotfile' →
  field ≠ INJECT_CLIENTS_FIELD →
  dotfile' !! field = dotfile !! field.
Proof.
  unfold update_dotfile_injection_clients. intros Hup Hfield.
  destruct (dotfile !! INJECT_CLIENTS_FIELD) as [v|] eqn:Hd.
  - rewrite Hd in Hup. destruct (decide (0 < length deps)%nat).
    + destruct (py_setitem v (as_posix c) _) as [v'|]; [|done].
      simpl in Hup. injection Hup as <-. by rewrite lookup_insert_ne.
    + destruct (py_in (as_posix c) v) as [[]|]; simpl in Hup; [| |done].
      * destruct (py_pop v (as_posix c)) as [v'|]; [|done].
        simpl in Hup. injection Hup as <-. by rewrite lookup_insert_ne.
      * by injection Hup as <-.
  - rewrite lookup_insert_eq in Hup. destruct (decide (0 < length deps)%nat).
    + cbv [mbind result_bind py_setitem] in Hup. injection Hup as <-.
      by rewrite !lookup_insert_ne by done.
    + cbv [mbind result_bind py_in] in Hup. rewrite lookup_empty in Hup.
      rewrite bool_decide_eq_false_2 in Hup by (by intros [? ?]).
      injection Hup as <-. by rewrite lookup_insert_ne.
Qed.

(** X4. The two kinds of bookkeeping do not touch each other.  Saving the
    seen files changes no answer of the reverse query; recording
    dependencies changes no processed time; neither changes the version
    strings. *)
Theorem bookkeeping_is_separate dotfile now seen_files client deps dotfile' :
  update_dotfile_injection_clients dotfile client deps = Ok dotfile' →
  (∀ q, get_clients_for_injection
          (update_dotfile_after_saving dotfile now seen_files) q
        = get_clients_for_injection dotfile q)
  ∧ (∀ p, get_processed_time dotfile' p = get_processed_time dotfile p)
  ∧ get_library_version_string dotfile' = get_library_version_string dotfile
  ∧ get_assistant_version_string dotfile' = get_assistant_version_string dotfile
  ∧ get_library_version_string (update_dotfile_after_saving dotfile now seen_files)
    = get_library_version_string dotfile
  ∧ get_assistant_version_string (update_dotfile_after_saving dotfile now seen_files)
    = get_assistant_version_string dotfile.
Proof.
  intros Hup.
  pose proof (update_dotfile_injection_clients_other_fields _ _ _ _ SEEN_FILES_FIELD
                Hup ltac:(done)) as Hseen.
  pose proof (update_dotfile_injection_clients_other_fields _ _ _ _ PROCESSED_TIME_FIELD
                Hup ltac:(done)) as Htime.
  split_and!.
  - intros q. unfold get_clients_for_injection, update_dotfile_after_saving.
    by rewrite !lookup_insert_ne.
  - intros p. unfold get_processed_time. by rewrite Hseen, Htime.
  - unfold get_library_version_string.
    by rewrite (update_dotfile_injection_clients_other_fields _ _ _ _ _ Hup).
  - unfold get_assistant_version_string.
    by rewrite (update_dotfile_injection_clients_other_fields _ _ _ _ _ Hup).
  - unfold get_library_version_string, update_dotfile_after_saving.
    by rewrite !lookup_insert_ne.
  - unfold get_assistant_version_string, update_dotfile_after_saving.
    by rewrite !lookup_insert_ne.
Qed.

(** X5. A dependency table that is not a dict.  When the field is there
    and holds anything but a dict (null, a time, a string, a list), the
    reverse query raises [AttributeError] and recording a client with
    dependencies raises [TypeError]; when it holds null, recording a client
    without dependencies raises [TypeError] too. *)
Theorem table_that_is_no_dict dotfile v client deps q :
  dotfile !! INJECT_CLIENTS_FIELD = Some v →
  (∀ t, v ≠ PDict t) →
  get_clients_for_injection dotfile q = Raise AttributeError
  ∧ (deps ≠ [] →
     update_dotfile_injection_clients dotfile client deps = Raise TypeError)
  ∧ (v = PNone →
     update_dotfile_injection_clients dotfile client deps = Raise TypeError).
Proof.
  intros Hd Hv. unfold get_clients_for_injection, update_dotfile_injection_clients.
  rewrite !Hd. split_and!.
  - destruct v; try done. by destruct (Hv d).
  - intros Hdeps. destruct deps; [done|]. simpl.
    destruct v; try done. by destruct (Hv d).
  - intros ->. by destruct deps.
Qed.

(** X6. Saving twice: the second call decides.  Nothing of the seen files
    and of the time of the first call is left. *)
Theorem second_saving_wins dotfile now1 files1 now2 files2 :
  update_dotfile_after_saving
    (update_dotfile_after_saving dotfile now1 files1) now2 files2
  = update_dotfile_after_saving dotfile now2 files2.
Proof.
  unfold update_dotfile_after_saving.
  rewrite (insert_insert_ne _ PROCESSED_TIME_FIELD SEEN_FILES_FIELD) by done.
  by rewrite !insert_insert_eq.
Qed.

End dotfile_compositions.

(** ** More on the decomposition *)
Section decomposition_more.
Context {TagColor : Type} `{EqDecision TagColor}.
Variable read : Path → RawAsepriteFile.t TagColor.

Import aseprites.
Implicit Type self : Aseprite TagColor.
Implicit Type c : AsepriteFileContent.t TagColor.

(** X7. [get_anims] never gives an empty list.  On a file that holds its
    content the number of animations is the number of tags of an animation
    colour, and one when there is none. *)
Theorem get_anims_never_empty self c :
  _content self = Some c →
  ∃ anims,
    get_anims read self = Ok anims
    ∧ anims ≠ []
    ∧ length anims
      = Nat.max 1 (length (filter (λ t, Tag.color t ∈ anim_tag_colors self)
                                  (AsepriteFileContent.tags c))).
Proof.
  intros Hc. eexists. split; [by apply get_anims_eq|].
  destruct (filter _ (AsepriteFileContent.tags c)) as [|t l]; [done|].
  split; [done|]. rewrite length_fmap. simpl. lia.
Qed.

(** X8. Every window has its tag.  A window of a frame range comes from a
    tag of the file that has a window colour, the name of the window, and
    start and end at the frames [start + a - 1] and [end + a - 1], both
    inside the range. *)
Theorem window_comes_from_a_tag self c a b ws w :
  _content self = Some c →
  get_windows_in_frame_range read self a b = Ok ws →
  w ∈ ws →
  ∃ t, t ∈ AsepriteFileContent.tags c
       ∧ Tag.color t ∈ window_tag_colors self
       ∧ Tag.name t = Window.name w
       ∧ Tag.start t = Window.start w + a - 1
       ∧ Tag.end_ t = Window.end_ w + a - 1
       ∧ a ≤ Tag.start t ≤ b
       ∧ a ≤ Tag.end_ t ≤ b.
Proof.
  intros Hc Hws Hw.
  apply (elem_of_get_windows read self c a b ws w Hc Hws) in Hw
    as (t & Ht & Hcol & [Hs He] & ->).
  exists t. simpl. split_and!; try done; lia.
Qed.

(** X9. A wider range keeps the windows.  Every window of the range [a..b]
    is, moved by [a - a'], a window of any range [a'..b'] around it. *)
Theorem wider_range_keeps_windows self c a b a' b' :
  _content self = Some c →
  a' ≤ a → b ≤ b' →
  ∃ ws ws',
    get_windows_in_frame_range read self a b = Ok ws
    ∧ get_windows_in_frame_range read self a' b' = Ok ws'
    ∧ (length ws ≤ length ws')%nat
    ∧ ∀ w, w ∈ ws →
           Window.mk (Window.name w) (Window.start w + (a - a'))
                     (Window.end_ w + (a - a')) ∈ ws'.
Proof.
  intros Hc Ha Hb. eexists _, _.
  split; [by apply get_windows_in_frame_range_eq|].
  split; [by apply get_windows_in_frame_range_eq|]. split.
  - rewrite !length_fmap. apply sublist_length.
    induction (AsepriteFileContent.tags c) as [|t l IH]; [done|].
    rewrite !filter_cons.
    destruct (decide (Tag.color t ∈ window_tag_colors self ∧ in_frame_range a b t))
      as [[Hcol [Hs He]]|Hno].
    + rewrite decide_True by (split; [done|]; unfold in_frame_range; lia).
      by apply sublist_skip.
    + case_decide; [by apply sublist_cons | done].
  - intros w (t & -> & [[Hcol [Hs He]] Hin]%list_elem_of_filter)%list_elem_of_fmap.
    apply list_elem_of_fmap. exists t. split.
    + unfold window_of_tag. simpl. f_equal; lia.
    + apply list_elem_of_filter. split; [|done].
      split; [done|]. unfold in_frame_range. lia.
Qed.

End decomposition_more.

(** ** More on reading Aseprite files *)
Section reading.
Context {TagColor Config : Type} `{EqDecision TagColor}.
Variable read : Path → RawAsepriteFile.t TagColor.
Variable _get_modified_time : Path → datetime.
Variable rglob : Path → string → list Path.
Variables get_anim_tag_color get_window_tag_color : Config → list TagColor.
Variable get_script_processed_time : gmap string pyval → option datetime.

Import aseprites.

Lemma with_hash_entry_subseteq (t : gmap string pyleaf) key :
  t ⊆ with_hash_entry t key.
Proof.
  unfold with_hash_entry. destruct (t !! key) eqn:Hk; [done|].
  by apply insert_subseteq.
Qed.

Lemma with_hash_entry_dom (t : gmap string pyleaf) key :
  dom (with_hash_entry t key) = dom t ∪ {[key]}.
Proof.
  unfold with_hash_entry. destruct (t !! key) eqn:Hk.
  - assert (key ∈ dom t) as Hin by (apply elem_of_dom; eauto).
    apply set_eq. intros x. rewrite elem_of_union, elem_of_singleton.
    split; [by left | by intros [?| ->]].
  - rewrite dom_insert_L. apply union_comm_L.
Qed.

Lemma read_aseprite_eq (rc : RunContext Config) p pt :
  hashes_table_ok (dotfile rc) →
  read_aseprite _get_modified_time get_anim_tag_color
    get_window_tag_color get_script_processed_time rc p pt
  = Ok (mkRunContext (root_dir rc)
          (<[ANIM_HASHES_FIELD :=
               PDict (with_hash_entry (hashes_table (dotfile rc)) (stem p))]>
             (dotfile rc))
          (assistant_config rc),
        mkAseprite
          (mkFile p (_get_modified_time p)
                  (match pt with
                   | None => get_script_processed_time (dotfile rc)
                   | Some t => Some t
                   end))
          (get_anim_tag_color (assistant_config rc))
          (get_window_tag_color (assistant_config rc))
          (Some (stem p)) None None).
Proof.
  unfold hashes_table_ok, hashes_table, with_hash_entry,
    read_aseprite, setdefault_anim_hashes.
  destruct (dotfile rc !! ANIM_HASHES_FIELD) as [[| | | |t]|] eqn:Hd; try done; intros _.
  - destruct (t !! stem p) eqn:Hk; [|done].
    cbn. by rewrite insert_id.
  - rewrite !lookup_empty. cbn. by rewrite insert_insert_eq.
Qed.

Lemma hashes_table_insert (d : gmap string pyval) t :
  hashes_table (<[ANIM_HASHES_FIELD := PDict t]> d) = t.
Proof. unfold hashes_table. by rewrite lookup_insert_eq. Qed.

Lemma hashes_table_ok_insert (d : gmap string pyval) t :
  hashes_table_ok (<[ANIM_HASHES_FIELD := PDict t]> d).
Proof. unfold hashes_table_ok. by rewrite lookup_insert_eq. Qed.

Lemma read_aseprite_no_content (rc : RunContext Config) p pt rc' a :
  read_aseprite _get_modified_time get_anim_tag_color
    get_window_tag_color get_script_processed_time rc p pt = Ok (rc', a) →
  _content a = None ∧ _anims a = None.
Proof.
  unfold read_aseprite.
  destruct (setdefault_anim_hashes (dotfile rc) (stem p)) as [[d r]|e]; [|done].
  simpl. by intros [= _ <-].
Qed.

Lemma read_aseprite_Ok_table (rc : RunContext Config) p pt rc' a :
  read_aseprite _get_modified_time get_anim_tag_color
    get_window_tag_color get_script_processed_time rc p pt = Ok (rc', a) →
  hashes_table_ok (dotfile rc).
Proof.
  unfold read_aseprite, setdefault_anim_hashes, hashes_table_ok.
  by destruct (dotfile rc !! ANIM_HASHES_FIELD) as [[| | | |t]|].
Qed.

(** X10. A file that was read cannot be decomposed.  The Aseprite that
    [read_aseprite] returns has no content yet; asking for it calls
    [from_path], which calls the constructor without [layer_tag_colors],
    so the content, the windows and the animations all raise
    [TypeError]. *)
Theorem read_file_cannot_be_decomposed (rc : RunContext Config) p pt rc' a :
  read_aseprite _get_modified_time get_anim_tag_color
    get_window_tag_color get_script_processed_time rc p pt = Ok (rc', a) →
  content read a = Raise TypeError
  ∧ (∀ start end_, get_windows_in_frame_range read a start end_ = Raise TypeError)
  ∧ get_anims read a = Raise TypeError
  ∧ anims read a = Raise TypeError.
Proof.
  intros [Hc Ha]%read_aseprite_no_content.
  assert (content read a = Raise TypeError) as Hcontent
    by (unfold content; by rewrite Hc).
  split_and!; [done | | |].
  - intros s e. unfold get_windows_in_frame_range. by rewrite Hcontent.
  - unfold get_anims. by rewrite Hcontent.
  - unfold anims, get_anims. by rewrite Ha, Hcontent.
Qed.

(** X11. When [read_aseprite] returns.  It returns when the field of the
    hashes is absent from the dotfile or holds a dict, and raises
    [AttributeError] when the field holds anything else, null included. *)
Theorem read_aseprite_returns_iff (rc : RunContext Config) p pt :
  match dotfile rc !! ANIM_HASHES_FIELD with
  | None | Some (PDict _) => ∃ rc' a, read_aseprite _get_modified_time get_anim_tag_color
    get_window_tag_color get_script_processed_time rc p pt = Ok (rc', a)
  | Some _ => read_aseprite _get_modified_time get_anim_tag_color
    get_window_tag_color get_script_processed_time rc p pt = Raise AttributeError
  end.
Proof.
  destruct (dotfile rc !! ANIM_HASHES_FIELD) as [[| | | |t]|] eqn:Hd;
    try (unfold read_aseprite, setdefault_anim_hashes; by rewrite Hd).
  - rewrite read_aseprite_eq by (unfold hashes_table_ok; by rewrite Hd).
    by eexists _, _.
  - rewrite read_aseprite_eq by (unfold hashes_table_ok; by rewrite Hd).
    by eexists _, _.
Qed.

(** X12. What [read_aseprite] does to the run context.  It changes nothing
    but the table of the hashes; in that table every entry stays as it was
    and the stem of the path gets the empty dict if it had no entry.  The
    Aseprite returned has the path, the modification time of the file, the
    processed time given (that of the dotfile when none is given) and the
    colours of the configuration. *)
Theorem read_aseprite_effect (rc : RunContext Config) p pt rc' a :
  read_aseprite _get_modified_time get_anim_tag_color
    get_window_tag_color get_script_processed_time rc p pt = Ok (rc', a) →
  root_dir rc' = root_dir rc
  ∧ assistant_config rc' = assistant_config rc
  ∧ (∀ field, field ≠ ANIM_HASHES_FIELD →
       dotfile rc' !! field = dotfile rc !! field)
  ∧ hashes_table (dotfile rc) ⊆ hashes_table (dotfile rc')
  ∧ dom (hashes_table (dotfile rc')) = dom (hashes_table (dotfile rc)) ∪ {[stem p]}
  ∧ (hashes_table (dotfile rc) !! stem p = None →
     hashes_table (dotfile rc') !! stem p = Some (LDict ∅))
  ∧ file a = mkFile p (_get_modified_time p)
               (match pt with
                | None => get_script_processed_time (dotfile rc)
                | Some t => Some t
                end)
  ∧ anim_tag_colors a = get_anim_tag_color (assistant_config rc)
  ∧ window_tag_colors a = get_window_tag_color (assistant_config rc).
Proof.
  intros Hread.
  assert (hashes_table_ok (dotfile rc)) as Hok
    by by eapply read_aseprite_Ok_table.
  rewrite read_aseprite_eq in Hread by done. injection Hread as <- <-. simpl.
  rewrite hashes_table_insert. split_and!; try done.
  - intros field Hfield. by rewrite lookup_insert_ne.
  - apply with_hash_entry_subseteq.
  - apply with_hash_entry_dom.
  - intros Hnone. unfold with_hash_entry. rewrite Hnone. apply lookup_insert_eq.
Qed.

(** X13. Reading the same path again changes nothing.  After a first
    [read_aseprite] a second one for the same path returns, leaves the run
    context as it is, and hands out the same table of hashes. *)
Theorem read_aseprite_again (rc : RunContext Config) p pt rc1 a1 pt' :
  read_aseprite _get_modified_time get_anim_tag_color
    get_window_tag_color get_script_processed_time rc p pt = Ok (rc1, a1) →
  ∃ a2, read_aseprite _get_modified_time get_anim_tag_color
    get_window_tag_color get_script_processed_time rc1 p pt' = Ok (rc1, a2)
        ∧ anim_hashes a2 = anim_hashes a1.
Proof.
  intros Hread.
  assert (hashes_table_ok (dotfile rc)) as Hok
    by by eapply read_aseprite_Ok_table.
  rewrite read_aseprite_eq in Hread by done. injection Hread as <- <-.
  rewrite read_aseprite_eq by apply hashes_table_ok_insert. simpl.
  rewrite hashes_table_insert, insert_insert_eq.
  assert (with_hash_entry (with_hash_entry (hashes_table (dotfile rc)) (stem p)) (stem p)
          = with_hash_entry (hashes_table (dotfile rc)) (stem p)) as ->.
  { unfold with_hash_entry at 1.
    assert (is_Some (with_hash_entry (hashes_table (dotfile rc)) (stem p) !! stem p))
      as [leaf ->]; [|done].
    apply elem_of_dom. rewrite with_hash_entry_dom.
    apply elem_of_union_r. by apply elem_of_singleton. }
  by eexists.
Qed.

Lemma read_each_spec paths : ∀ (rc : RunContext Config) pt,
  hashes_table_ok (dotfile rc) →
  ∃ rc' l,
    read_each _get_modified_time get_anim_tag_color get_window_tag_color
      get_script_processed_time rc paths pt = Ok (rc', l)
    ∧ hashes_table_ok (dotfile rc')
    ∧ root_dir rc' = root_dir rc
    ∧ assistant_config rc' = assistant_config rc
    ∧ (∀ field, field ≠ ANIM_HASHES_FIELD →
         dotfile rc' !! field = dotfile rc !! field)
    ∧ hashes_table (dotfile rc) ⊆ hashes_table (dotfile rc')
    ∧ dom (hashes_table (dotfile rc'))
      = dom (hashes_table (dotfile rc)) ∪ list_to_set (stem <$> paths)
    ∧ (λ a, path (file a)) <$> l = paths
    ∧ Forall (λ a, modified_time (file a) = _get_modified_time (path (file a))
                   ∧ anim_hashes a = Some (stem (path (file a)))
                   ∧ anim_tag_colors a = get_anim_tag_color (assistant_config rc)
                   ∧ window_tag_colors a = get_window_tag_color (assistant_config rc)
                   ∧ _content a = None
                   ∧ (∀ t, pt = Some t → processed_time (file a) = Some t)) l.
Proof.
  induction paths as [|p paths IH]; intros rc pt Hok.
  - exists rc, []. simpl. split_and!; try done. by rewrite union_empty_r_L.
  - simpl. rewrite read_aseprite_eq by done. simpl.
    edestruct (IH (mkRunContext (root_dir rc)
                     (<[ANIM_HASHES_FIELD :=
                          PDict (with_hash_entry (hashes_table (dotfile rc)) (stem p))]>
                        (dotfile rc))
                     (assistant_config rc)) pt)
      as (rc' & l & -> & Hok' & Hroot & Hcfg & Hfields & Hsub & Hdom & Hpaths & Hall).
    { apply hashes_table_ok_insert. }
    simpl in *. rewrite hashes_table_insert in Hsub, Hdom.
    eexists _, _. split; [done|]. split_and!; try done.
    + intros field Hfield. rewrite Hfields by done. by rewrite lookup_insert_ne.
    + etrans; [apply with_hash_entry_subseteq|done].
    + rewrite Hdom, with_hash_entry_dom. simpl. by rewrite (assoc_L (∪)).
    + simpl. by f_equal.
    + constructor; [|done]. simpl. split_and!; try done.
      intros t ->. done.
Qed.

(** X14. [read_aseprites] reads every file found.  With the field of the
    hashes absent or a dict it returns one Aseprite for each path found,
    the [.ase] files before the [.aseprite] files, each without content,
    with the modification time of its file, the colours of the
    configuration and the table of hashes of its stem.  Afterwards the
    table of hashes has its old entries unchanged and an entry for the
    stem of every path found; nothing else in the run context changed. *)
Theorem read_aseprites_reads_all (rc : RunContext Config) :
  hashes_table_ok (dotfile rc) →
  let ase_paths :=
    rglob (root_dir rc /ₚ of_str "anims") "*.ase"
    ++ rglob (root_dir rc /ₚ of_str "anims") "*.aseprite" in
  ∃ rc' l,
    read_aseprites _get_modified_time rglob get_anim_tag_color
      get_window_tag_color get_script_processed_time rc = Ok (rc', l)
    ∧ (λ a, path (file a)) <$> l = ase_paths
    ∧ Forall (λ a, modified_time (file a) = _get_modified_time (path (file a))
                   ∧ anim_hashes a = Some (stem (path (file a)))
                   ∧ anim_tag_colors a = get_anim_tag_color (assistant_config rc)
                   ∧ window_tag_colors a = get_window_tag_color (assistant_config rc)
                   ∧ _content a = None
                   ∧ (∀ t, get_script_processed_time (dotfile rc) = Some t →
                           processed_time (file a) = Some t)) l
    ∧ hashes_table (dotfile rc) ⊆ hashes_table (dotfile rc')
    ∧ dom (hashes_table (dotfile rc'))
      = dom (hashes_table (dotfile rc)) ∪ list_to_set (stem <$> ase_paths)
    ∧ root_dir rc' = root_dir rc
    ∧ assistant_config rc' = assistant_config rc
    ∧ (∀ field, field ≠ ANIM_HASHES_FIELD →
         dotfile rc' !! field = dotfile rc !! field).
Proof.
  intros Hok ase_paths. unfold read_aseprites. fold ase_paths.
  destruct (read_each_spec ase_paths rc (get_script_processed_time (dotfile rc)) Hok)
    as (rc' & l & -> & _ & Hroot & Hcfg & Hfields & Hsub & Hdom & Hpaths & Hall).
  by exists rc', l.
Qed.

End reading.

(** ** More on the export *)
Section export_more.
Context {TagColor Frame : Type}.
Variables ANIMS_FOLDER SPRITES_FOLDER : Path.
Variable get_tags : Path → list (aseprite_handling.AsepriteTag TagColor).
Variable fnmatch : string → string → bool.
Variable program_exists : string → bool.

Import aseprite_handling.
Implicit Type self : Aseprite TagColor Frame.

Lemma strip_prefix_app base rel : strip_prefix base (base ++ rel) = Some rel.
Proof. induction base as [|b base IH]; [done|]. simpl. by rewrite decide_True. Qed.

Lemma strip_prefix_Some base p rel : strip_prefix base p = Some rel → p = base ++ rel.
Proof.
  revert p. induction base as [|b base IH]; intros p; [by intros [= ->]|].
  destruct p as [|x p]; [done|]. simpl.
  case_decide as Hb; [|done]. subst x. intros Hp. by rewrite (IH p Hp).
Qed.

Lemma relative_to_app base rel :
  base ≠ [] → relative_to (base ++ rel) base = Ok rel.
Proof.
  intros Hbase. unfold relative_to. destruct base as [|b base']; [done|].
  by rewrite strip_prefix_app.
Qed.

Lemma relative_to_Ok p base rel : relative_to p base = Ok rel → p = base ++ rel.
Proof.
  unfold relative_to. destruct base as [|b base'].
  - case_decide; [by intros [= ->]|done].
  - destruct (strip_prefix (b :: base') p) as [r|] eqn:Hr; [|done].
    intros [= <-]. by apply strip_prefix_Some.
Qed.

Lemma part_ok_not_root x : part_ok x → is_root x = false.
Proof.
  intros (_ & _ & Hslash). apply bool_decide_eq_false. by intros [-> | ->].
Qed.

Lemma anchor_len_part p : Forall part_ok p → anchor_len p = 0%nat.
Proof.
  intros Hp. destruct Hp as [|x p Hx Hp]; [done|].
  simpl. by rewrite part_ok_not_root.
Qed.

Lemma anchor_len_take k p :
  anchor_len p = 0%nat → anchor_len (take k p) = 0%nat.
Proof. destruct p as [|x p], k as [|k]; done. Qed.

Lemma name_take_S k rel x :
  anchor_len rel = 0%nat → rel !! k = Some x → pathlib.name (take (S k) rel) = x.
Proof.
  intros Hrel Hx. unfold pathlib.name.
  rewrite anchor_len_take by done.
  rewrite (take_S_r _ _ x) by done.
  rewrite decide_False by (rewrite length_app; simpl; lia).
  apply last_last.
Qed.

Lemma names_of_parents k : ∀ rel,
  anchor_len rel = 0%nat → (k < length rel)%nat →
  pathlib.name <$> reverse (take k (parents_from 0 (S k) rel)) = take k rel.
Proof.
  induction k as [|k IH]; intros rel Hrel Hk; [done|].
  change (parents_from 0 (S (S k)) rel)
    with (take (0 + S k) rel :: parents_from 0 (S k) rel).
  rewrite firstn_cons, reverse_cons, fmap_app, IH by (done || lia).
  destruct (lookup_lt_is_Some_2 rel k ltac:(lia)) as [x Hx].
  simpl. rewrite (name_take_S k rel x) by done.
  by rewrite (take_S_r _ _ x).
Qed.

Lemma parents_from_length anchor n p : length (parents_from anchor n p) = n.
Proof. induction n as [|n IH]; [done|]. simpl. by rewrite IH. Qed.

(** X15. The base name of a sprite.  For a file below the folder of the
    animations the base name is the names of the folders in between and
    the stem of the file, joined by underscores. *)
Theorem sprite_base_name_joins_folders self root_dir rel :
  wf (path (file self)) →
  root_dir /ₚ ANIMS_FOLDER ≠ [] →
  path (file self) = (root_dir /ₚ ANIMS_FOLDER) ++ rel →
  get_sprite_base_name ANIMS_FOLDER self root_dir
  = Ok (join "_" (removelast rel ++ [stem (path (file self))])).
Proof.
  intros Hwf Hbase Hpath. unfold get_sprite_base_name.
  rewrite Hpath at 1. rewrite relative_to_app by done. simpl.
  assert (anchor_len rel = 0%nat) as Hrel.
  { apply anchor_len_part. unfold wf in Hwf. rewrite Hpath in Hwf.
    destruct (root_dir /ₚ ANIMS_FOLDER) as [|b base] eqn:Hb; [done|].
    assert (rel = drop (length (b :: base) - anchor_len ((b :: base) ++ rel))
                       (drop (anchor_len ((b :: base) ++ rel)) ((b :: base) ++ rel)))
      as ->.
    { rewrite drop_drop.
      replace (anchor_len ((b :: base) ++ rel)
               + (length (b :: base) - anchor_len ((b :: base) ++ rel)))%nat
        with (length (b :: base)).
      - by rewrite drop_app_length.
      - pose proof (anchor_len_le ((b :: base) ++ rel)). simpl in *. lia. }
    by apply Forall_drop. }
  do 3 f_equal. unfold parents. rewrite Hrel, Nat.sub_0_r, parents_from_length.
  destruct rel as [|x rel'] using rev_ind; [done|].
  rewrite removelast_last, length_app. simpl.
  replace (length rel' + 1 - 1)%nat with (length rel') by lia.
  replace (length rel' + 1)%nat with (S (length rel')) by lia.
  rewrite names_of_parents by (done || (rewrite length_app; simpl; lia)).
  by rewrite take_app_length.
Qed.

(** X16. [save] removes old strips of the file and nothing else, whatever
    happens.  However a call ends, the call itself has added no file (what
    the export tool writes is the tool's business), every file that is gone
    lay in the sprites folder and matched [<base_name>_strip*.png], the log
    only grew, and if the call raised no command was run. *)
Theorem save_removes_only_old_strips
    self root_dir aseprite_path has_small_sprites w w' r :
  save ANIMS_FOLDER SPRITES_FOLDER get_tags fnmatch program_exists
       self root_dir aseprite_path has_small_sprites w = (w', r) →
  files w' ⊆ files w
  ∧ (∀ p, p ∈ files w → p ∉ files w' →
       ∃ base_name,
         get_sprite_base_name ANIMS_FOLDER self root_dir = Ok base_name
         ∧ matching fnmatch (root_dir /ₚ SPRITES_FOLDER)
                    (base_name +:+ "_strip*.png") p)
  ∧ ∃ events, log w' = log w ++ events
              ∧ (r ≠ Ok () → ∀ command, Run command ∉ events).
Proof.
  rewrite (save_eq ANIMS_FOLDER SPRITES_FOLDER get_tags fnmatch program_exists).
  assert (∀ base_name p,
            p ∈ files w →
            p ∉ files w ∖ list_to_set
                  (elements (filter (matching fnmatch (root_dir /ₚ SPRITES_FOLDER)
                                              (base_name +:+ "_strip*.png"))
                                    (files w))) →
            matching fnmatch (root_dir /ₚ SPRITES_FOLDER)
                     (base_name +:+ "_strip*.png") p) as Hgone.
  { intros base p Hp Hout.
    destruct (decide (matching fnmatch (root_dir /ₚ SPRITES_FOLDER)
                               (base +:+ "_strip*.png") p)) as [|Hno]; [done|].
    destruct Hout. apply elem_of_difference. split; [done|].
    rewrite elem_of_list_to_set, elem_of_elements, elem_of_filter.
    by intros [? _]. }
  destruct (get_sprite_base_name ANIMS_FOLDER self root_dir) as [base|e].
  - destruct (get_frames (content get_tags self)) as [frames|e]; cbn zeta;
      [destruct (program_exists _)|]; intros [= <- <-]; cbn [files log].
    + split_and!.
      * apply subseteq_difference_l. done.
      * intros p Hp Hout. exists base. split; [done|]. by apply Hgone.
      * eexists. split; [by rewrite <-app_assoc|]. by intros [].
    + split_and!.
      * apply subseteq_difference_l. done.
      * intros p Hp Hout. exists base. split; [done|]. by apply Hgone.
      * eexists. split; [by rewrite <-app_assoc|]. intros _ command Hin.
        apply elem_of_app in Hin as [Hin | Hin].
        -- by apply list_elem_of_fmap in Hin as (? & ? & _).
        -- by apply list_elem_of_singleton in Hin.
    + split_and!.
      * apply subseteq_difference_l. done.
      * intros p Hp Hout. exists base. split; [done|]. by apply Hgone.
      * eexists. split; [done|]. intros _ command Hin.
        by apply list_elem_of_fmap in Hin as (? & ? & _).
  - intros [= <- <-]. split_and!; [done | done |].
    exists []. split; [by rewrite app_nil_r|]. intros _ command Hin.
    by apply elem_of_nil in Hin.
Qed.

(** X17. [save] on a file whose content comes from [from_path].  The old
    strips are removed and then the call raises [AttributeError], because
    an [AsepriteData] has no [frames]: nothing is exported and the old
    strips are gone. *)
Theorem save_of_loaded_content_only_removes
    self root_dir aseprite_path has_small_sprites base_name w :
  _content self = None →
  get_sprite_base_name ANIMS_FOLDER self root_dir = Ok base_name →
  let old_paths :=
    elements (filter (matching fnmatch (root_dir /ₚ SPRITES_FOLDER)
                               (base_name +:+ "_strip*.png")) (files w)) in
  save ANIMS_FOLDER SPRITES_FOLDER get_tags fnmatch program_exists
       self root_dir aseprite_path has_small_sprites w
  = (mkWorld (files w ∖ list_to_set old_paths) (log w ++ (Remove <$> old_paths)),
     Raise AttributeError).
Proof.
  intros Hc Hbase old_paths.
  rewrite (save_eq ANIMS_FOLDER SPRITES_FOLDER get_tags fnmatch program_exists), Hbase.
  unfold content. by rewrite Hc.
Qed.

(** X18. A file that is not below the folder of the animations.  Both
    [_delete_old_save] and [save] raise [ValueError] and leave the files
    and the log as they are. *)
Theorem save_outside_anims_folder
    self root_dir aseprite_path has_small_sprites w :
  (∀ rel, path (file self) ≠ (root_dir /ₚ ANIMS_FOLDER) ++ rel) →
  get_sprite_base_name ANIMS_FOLDER self root_dir = Raise ValueError
  ∧ _delete_old_save ANIMS_FOLDER SPRITES_FOLDER fnmatch self root_dir w
    = (w, Raise ValueError)
  ∧ save ANIMS_FOLDER SPRITES_FOLDER get_tags fnmatch program_exists
         self root_dir aseprite_path has_small_sprites w
    = (w, Raise ValueError).
Proof.
  intros Hout.
  assert (get_sprite_base_name ANIMS_FOLDER self root_dir = Raise ValueError) as Hbase.
  { unfold get_sprite_base_name.
    destruct (relative_to (path (file self)) (root_dir /ₚ ANIMS_FOLDER))
      as [rel|e] eqn:Hrel.
    - apply relative_to_Ok in Hrel. by destruct (Hout rel).
    - unfold relative_to in Hrel. by repeat case_match; simplify_eq. }
  split_and!; [done | |].
  - unfold _delete_old_save. unfold mbind at 1, io_bind, lift. by rewrite Hbase.
  - by rewrite (save_eq ANIMS_FOLDER SPRITES_FOLDER get_tags fnmatch program_exists),
      Hbase.
Qed.

(** X19. Removing the old strips twice.  After [_delete_old_save] has
    returned, no file of the sprites folder matches the pattern, and a
    second call returns without removing or logging anything. *)
Theorem _delete_old_save_twice self root_dir w w1 :
  _delete_old_save ANIMS_FOLDER SPRITES_FOLDER fnmatch self root_dir w = (w1, Ok ()) →
  (∃ base_name,
     get_sprite_base_name ANIMS_FOLDER self root_dir = Ok base_name
     ∧ ∀ p, p ∈ files w1 →
            ¬ matching fnmatch (root_dir /ₚ SPRITES_FOLDER)
                       (base_name +:+ "_strip*.png") p)
  ∧ _delete_old_save ANIMS_FOLDER SPRITES_FOLDER fnmatch self root_dir w1
    = (w1, Ok ()).
Proof.
  intros Hfirst.
  destruct (get_sprite_base_name ANIMS_FOLDER self root_dir) as [base|e] eqn:Hbase.
  2:{ unfold _delete_old_save in Hfirst.
      unfold mbind at 1, io_bind, lift in Hfirst. by rewrite Hbase in Hfirst. }
  rewrite (_delete_old_save_eq ANIMS_FOLDER SPRITES_FOLDER fnmatch
             self root_dir base w Hbase) in Hfirst.
  injection Hfirst as <-.
  set (P := matching fnmatch (root_dir /ₚ SPRITES_FOLDER) (base +:+ "_strip*.png")).
  set (w1 := mkWorld _ _).
  assert (∀ p, p ∈ files w1 → ¬ P p) as Hnone.
  { intros p [Hp Hout]%elem_of_difference HP. apply Hout.
    rewrite elem_of_list_to_set, elem_of_elements, elem_of_filter. done. }
  split; [by exists base|].
  rewrite (_delete_old_save_eq ANIMS_FOLDER SPRITES_FOLDER fnmatch
             self root_dir base w1 Hbase).
  fold P. assert (filter P (files w1) = ∅) as ->.
  { apply set_eq. intros p. rewrite elem_of_filter.
    split; [intros [HP Hp]; by destruct (Hnone p) | by intros ?%not_elem_of_empty]. }
  rewrite elements_empty. subst w1. simpl.
  by rewrite difference_empty_L, app_nil_r.
Qed.

End export_more.

(** ** The further properties at the sample data *)
Section more_at_sample_data.
Import sample sample_more.

Lemma second_update_of_a_client_wins_witness :
  clients_table_ok stored
  ∧ (d1 ← update_dotfile_injection_clients stored attack [combo_lib];
     update_dotfile_injection_clients d1 attack [])
    = update_dotfile_injection_clients stored attack [].
Proof.
  assert (clients_table_ok stored) as H1 by by vm_compute.
  split; [done|].
  apply (second_update_of_a_client_wins stored attack [combo_lib] [] H1).
Defined.

Lemma updates_of_two_clients_commute_witness :
  clients_table_ok stored
  ∧ as_posix attack ≠ as_posix other
  ∧ (d1 ← update_dotfile_injection_clients stored attack [combo_lib];
     update_dotfile_injection_clients d1 other [])
    = (d2 ← update_dotfile_injection_clients stored other [];
       update_dotfile_injection_clients d2 attack [combo_lib]).
Proof.
  assert (clients_table_ok stored) as H1 by by vm_compute.
  assert (as_posix attack ≠ as_posix other) as H2 by by vm_compute.
  split_and!; [done..|].
  apply (updates_of_two_clients_commute stored attack [combo_lib] other [] H1 H2).
Defined.

Lemma reverse_query_after_update_witness :
  clients_table_ok stored
  ∧ canonical_keys (clients_table stored)
  ∧ wf attack
  ∧ ∃ l dotfile' l',
      get_clients_for_injection stored combo_lib = Ok l
      ∧ update_dotfile_injection_clients stored attack [combo_lib] = Ok dotfile'
      ∧ get_clients_for_injection dotfile' combo_lib = Ok l'
      ∧ (attack ∈ l' ↔ as_posix combo_lib ∈ as_posix <$> [combo_lib])
      ∧ (∀ p, p ≠ attack → p ∈ l' ↔ p ∈ l).
Proof.
  assert (clients_table_ok stored) as H1 by by vm_compute.
  assert (canonical_keys (clients_table stored)) as H2
    by (apply (bool_decide_unpack _); by vm_compute).
  assert (wf attack) as H3 by (apply (bool_decide_unpack _); by vm_compute).
  split_and!; [done..|].
  apply (reverse_query_after_update stored attack [combo_lib] combo_lib H1 H2 H3).
Defined.

Lemma bookkeeping_is_separate_witness :
  update_dotfile_injection_clients stored attack [combo_lib] = Ok stored_with_attack
  ∧ get_processed_time stored_with_attack attack = get_processed_time stored attack
  ∧ get_clients_for_injection (update_dotfile_after_saving stored 200 []) combo_lib
    = get_clients_for_injection stored combo_lib.
Proof.
  assert (update_dotfile_injection_clients stored attack [combo_lib]
          = Ok stored_with_attack) as Hup by (vm_compute; reflexivity).
  destruct (bookkeeping_is_separate stored 200 [] attack [combo_lib]
              stored_with_attack Hup) as (Hq & Hp & _).
  split; [exact Hup|]. split; [exact (Hp attack) | exact (Hq combo_lib)].
Defined.

Lemma table_that_is_no_dict_witness :
  null_tables !! INJECT_CLIENTS_FIELD = Some PNone
  ∧ (∀ t, PNone ≠ PDict t)
  ∧ get_clients_for_injection null_tables combo_lib = Raise AttributeError
  ∧ update_dotfile_injection_clients null_tables attack [] = Raise TypeError.
Proof.
  assert (∀ t, PNone ≠ PDict t) as H2 by done.
  destruct (table_that_is_no_dict null_tables PNone attack [] combo_lib eq_refl H2)
    as (Hq & _ & Hup).
  split_and!; [reflexivity | done | done | by apply Hup].
Defined.

Lemma get_anims_never_empty_witness :
  aseprites._content bare_file = Some (content_of 5 [])
  ∧ ∃ anims, aseprites.get_anims no_file bare_file = Ok anims
             ∧ anims ≠ []
             ∧ length anims = 1%nat.
Proof.
  split; [reflexivity|].
  apply (get_anims_never_empty no_file bare_file (content_of 5 []) eq_refl).
Defined.

Lemma window_comes_from_a_tag_witness :
  let w := Window.mk "hitbox" 2 3 in
  aseprites._content run_file = Some run_content
  ∧ aseprites.get_windows_in_frame_range no_file run_file 0 3 = Ok [w]
  ∧ w ∈ [w]
  ∧ ∃ t, t ∈ AsepriteFileContent.tags run_content
         ∧ Tag.color t ∈ aseprites.window_tag_colors run_file
         ∧ Tag.name t = "hitbox"
         ∧ Tag.start t = 2 + 0 - 1
         ∧ Tag.end_ t = 3 + 0 - 1
         ∧ 0 ≤ Tag.start t ≤ 3
         ∧ 0 ≤ Tag.end_ t ≤ 3.
Proof.
  intros w.
  assert (aseprites.get_windows_in_frame_range no_file run_file 0 3 = Ok [w]) as H1
    by by vm_compute.
  assert (w ∈ [w]) as H2 by apply list_elem_of_here.
  split_and!; [reflexivity | done | done |].
  apply (window_comes_from_a_tag no_file run_file run_content 0 3 [w] w eq_refl H1 H2).
Defined.

Lemma wider_range_keeps_windows_witness :
  aseprites._content odd_file = Some odd_content
  ∧ 0 ≤ 1 ∧ 2 ≤ 5
  ∧ ∃ ws ws',
      aseprites.get_windows_in_frame_range no_file odd_file 1 2 = Ok ws
      ∧ aseprites.get_windows_in_frame_range no_file odd_file 0 5 = Ok ws'
      ∧ (length ws ≤ length ws')%nat
      ∧ ∀ w, w ∈ ws →
             Window.mk (Window.name w) (Window.start w + (1 - 0))
                       (Window.end_ w + (1 - 0)) ∈ ws'.
Proof.
  assert (0 ≤ 1) as H1 by lia. assert (2 ≤ 5) as H2 by lia.
  split_and!; [reflexivity | done | done |].
  apply (wider_range_keeps_windows no_file odd_file odd_content 1 2 0 5 eq_refl H1 H2).
Defined.

Lemma read_file_cannot_be_decomposed_witness :
  ∃ rc' a,
    aseprites.read_aseprite clock fst snd last_run context
      ["proj"; "anims"; "idle.ase"] None = Ok (rc', a)
    ∧ aseprites.get_anims no_file a = Raise TypeError.
Proof.
  destruct (aseprites.read_aseprite clock fst snd last_run context
              ["proj"; "anims"; "idle.ase"] None) as [[rc' a]|e] eqn:Hr;
    [|by vm_compute in Hr].
  destruct (read_file_cannot_be_decomposed no_file clock fst snd last_run
              context ["proj"; "anims"; "idle.ase"] None rc' a Hr)
    as (_ & _ & Hanims & _).
  by exists rc', a.
Defined.

Lemma read_aseprite_effect_witness :
  ∃ rc' a,
    aseprites.read_aseprite clock fst snd last_run context
      ["proj"; "anims"; "idle.ase"] None = Ok (rc', a)
    ∧ hashes_table (dotfile rc') !! "idle" = Some (LDict ∅)
    ∧ dotfile rc' !! SEEN_FILES_FIELD = dotfile context !! SEEN_FILES_FIELD
    ∧ aseprites.file a = mkFile ["proj"; "anims"; "idle.ase"] 150 (Some 100).
Proof.
  destruct (aseprites.read_aseprite clock fst snd last_run context
              ["proj"; "anims"; "idle.ase"] None) as [[rc' a]|e] eqn:Hr;
    [|by vm_compute in Hr].
  destruct (read_aseprite_effect clock fst snd last_run
              context ["proj"; "anims"; "idle.ase"] None rc' a Hr)
    as (_ & _ & Hfields & _ & _ & Hnew & Hfile & _).
  exists rc', a. split_and!; [done | by apply Hnew | by apply Hfields | done].
Defined.

Lemma read_aseprite_again_witness :
  ∃ rc1 a1 a2,
    aseprites.read_aseprite clock fst snd last_run context
      ["proj"; "anims"; "idle.ase"] None = Ok (rc1, a1)
    ∧ aseprites.read_aseprite clock fst snd last_run rc1
        ["proj"; "anims"; "idle.ase"] (Some 7) = Ok (rc1, a2)
    ∧ aseprites.anim_hashes a2 = aseprites.anim_hashes a1.
Proof.
  destruct (aseprites.read_aseprite clock fst snd last_run context
              ["proj"; "anims"; "idle.ase"] None) as [[rc1 a1]|e] eqn:Hr;
    [|by vm_compute in Hr].
  destruct (read_aseprite_again clock fst snd last_run
              context ["proj"; "anims"; "idle.ase"] None rc1 a1 (Some 7) Hr)
    as (a2 & Hr2 & Hsame).
  by exists rc1, a1, a2.
Defined.

Lemma read_aseprites_reads_all_witness :
  hashes_table_ok (dotfile context)
  ∧ ∃ rc' l,
      aseprites.read_aseprites (TagColor := string) clock finder fst snd last_run context
      = Ok (rc', l)
      ∧ (λ a, path (aseprites.file a)) <$> l
        = [ ["proj"; "anims"; "idle.ase"]; ["proj"; "anims"; "fx"; "spark.ase"];
            ["proj"; "anims"; "walk.aseprite"] ]
      ∧ dom (hashes_table (dotfile rc')) = {[ "idle"; "spark"; "walk" ]}.
Proof.
  assert (hashes_table_ok (dotfile context)) as H1 by by vm_compute.
  split; [done|].
  destruct (read_aseprites_reads_all clock finder fst snd last_run context H1)
    as (rc' & l & Hr & Hpaths & _ & _ & Hdom & _).
  exists rc', l. split_and!; [done | done |].
  rewrite Hdom. by vm_compute.
Defined.

Lemma sprite_base_name_joins_folders_witness :
  wf (path (aseprite_handling.file nested))
  ∧ ["proj"] /ₚ ["anims"] ≠ []
  ∧ path (aseprite_handling.file nested)
    = (["proj"] /ₚ ["anims"]) ++ ["fx"; "big"; "spark.ase"]
  ∧ aseprite_handling.get_sprite_base_name ["anims"] nested ["proj"]
    = Ok "fx_big_spark".
Proof.
  assert (wf (path (aseprite_handling.file nested))) as H1
    by (apply (bool_decide_unpack _); by vm_compute).
  assert (["proj"] /ₚ ["anims"] ≠ []) as H2 by by vm_compute.
  split_and!; [done | done | reflexivity |].
  apply (sprite_base_name_joins_folders ["anims"] nested ["proj"]
           ["fx"; "big"; "spark.ase"] H1 H2 eq_refl).
Defined.

Lemma save_removes_only_old_strips_witness :
  aseprite_handling.save ["anims"] ["sprites"] (λ _, []) fnmatch_star (λ _, true)
    loaded ["proj"] ["bin"; "aseprite"] false disk
  = (disk_without_idle, Raise AttributeError)
  ∧ files disk_without_idle ⊆ files disk
  ∧ ∃ events, log disk_without_idle = log disk ++ events
              ∧ (Raise AttributeError ≠ Ok () → ∀ command, Run command ∉ events).
Proof.
  assert (aseprite_handling.save ["anims"] ["sprites"] (λ _, []) fnmatch_star
            (λ _, true) loaded ["proj"] ["bin"; "aseprite"] false disk
          = (disk_without_idle, Raise AttributeError)) as Hs
    by (vm_compute; reflexivity).
  destruct (save_removes_only_old_strips ["anims"] ["sprites"] (λ _, []) fnmatch_star
              (λ _, true) loaded ["proj"] ["bin"; "aseprite"] false disk
              disk_without_idle (Raise AttributeError) Hs)
    as (Hsub & _ & Hlog).
  split; [exact Hs|]. split; [exact Hsub | exact Hlog].
Defined.

Lemma save_of_loaded_content_only_removes_witness :
  aseprite_handling._content loaded = None
  ∧ aseprite_handling.get_sprite_base_name ["anims"] loaded ["proj"] = Ok "idle"
  ∧ aseprite_handling.save ["anims"] ["sprites"] (λ _, []) fnmatch_star (λ _, true)
      loaded ["proj"] ["bin"; "aseprite"] false disk
    = (disk_without_idle, Raise AttributeError).
Proof.
  split; [reflexivity|]. split; [vm_compute; reflexivity|].
  assert (aseprite_handling.get_sprite_base_name (TagColor := string) (Frame := unit)
            ["anims"] loaded ["proj"] = Ok "idle") as Hbase
    by (vm_compute; reflexivity).
  rewrite (save_of_loaded_content_only_removes ["anims"] ["sprites"] (λ _, [])
             fnmatch_star (λ _, true) loaded ["proj"] ["bin"; "aseprite"] false "idle" disk
             eq_refl Hbase).
  vm_compute. reflexivity.
Defined.

Lemma save_outside_anims_folder_witness :
  (∀ rel, path (aseprite_handling.file stray) ≠ (["proj"] /ₚ ["anims"]) ++ rel)
  ∧ aseprite_handling.save ["anims"] ["sprites"] (λ _, []) fnmatch_star (λ _, true)
      stray ["proj"] ["bin"; "aseprite"] false disk
    = (disk, Raise ValueError).
Proof.
  assert (∀ rel, path (aseprite_handling.file stray) ≠ (["proj"] /ₚ ["anims"]) ++ rel)
    as H1 by (intros rel; by vm_compute).
  split; [done|].
  apply (save_outside_anims_folder ["anims"] ["sprites"] (λ _, []) fnmatch_star
           (λ _, true) stray ["proj"] ["bin"; "aseprite"] false disk H1).
Defined.

Lemma _delete_old_save_twice_witness :
  aseprite_handling._delete_old_save ["anims"] ["sprites"] fnmatch_star
    loaded ["proj"] disk = (disk_without_idle, Ok ())
  ∧ aseprite_handling._delete_old_save ["anims"] ["sprites"] fnmatch_star
      loaded ["proj"] disk_without_idle = (disk_without_idle, Ok ()).
Proof.
  assert (aseprite_handling._delete_old_save ["anims"] ["sprites"] fnmatch_star
            loaded ["proj"] disk = (disk_without_idle, Ok ())) as Hd
    by (vm_compute; reflexivity).
  destruct (_delete_old_save_twice ["anims"] ["sprites"] fnmatch_star
              loaded ["proj"] disk disk_without_idle Hd) as [_ Hagain].
  split; [exact Hd | exact Hagain].
Defined.

Lemma save_never_reaches_the_export_witness :
  (aseprite_handling._content loaded = None
   ∨ ∃ d, aseprite_handling._content loaded = Some (aseprite_handling.Data d))
  ∧ aseprite_handling.get_sprite_base_name ["anims"] loaded ["proj"] = Ok "idle"
  ∧ ∃ w',
      aseprite_handling.save ["anims"] ["sprites"] (λ _, []) fnmatch_star (λ _, true)
        loaded ["proj"] ["bin"; "aseprite"] false disk
      = (w', Raise AttributeError)
      ∧ (∃ removed, log w' = log disk ++ (Remove <$> removed))
      ∧ ∀ p, p ∈ files w' ↔
             p ∈ files disk
             ∧ ¬ matching fnmatch_star (["proj"] /ₚ ["sprites"]) "idle_strip*.png" p.
Proof.
  assert (aseprite_handling._content loaded = None
          ∨ ∃ d, aseprite_handling._content loaded = Some (aseprite_handling.Data d))
    as H1 by (left; reflexivity).
  assert (aseprite_handling.get_sprite_base_name (TagColor := string) (Frame := unit)
            ["anims"] loaded ["proj"] = Ok "idle") as Hbase
    by (vm_compute; reflexivity).
  split; [exact H1|]. split; [exact Hbase|].
  destruct (save_never_reaches_the_export ["anims"] ["sprites"] (λ _, []) fnmatch_star
              (λ _, true) loaded ["proj"] ["bin"; "aseprite"] false disk H1)
    as (w' & e & Hsave & _ & Hlog & Hdef).
  destruct (Hdef "idle" Hbase) as [-> Hfiles].
  exists w'. split; [exact Hsave|]. split; [exact Hlog | exact Hfiles].
Defined.

End more_at_sample_data.
